(** * Crystal structure generator: lattice construction, supercell tiling
      and structure validation

    A shallow embedding of [crystal_structures/constants.py],
    [crystal_structures/validators.py], [crystal_structures/generator.py]
    and [crystal_structures/common_structures.py].

    Numbers.  Python floats are read as real numbers ([R]): [+], [*], [/] are
    the exact field operations, [np.linalg.norm] is the Euclidean norm and
    [<=], [>] are the order of [R].  NaN and infinities are outside the
    model, and runs on given numbers are proved rather than evaluated.
    Rounding is a function [fl] on [R] applied after every operation, in
    the section on rounded arithmetic, where a property depends on it.
    Python integers are [Z].

    Exceptions.  A function that can raise returns a [result]; [raise] in the
    source is [Raise] here, and the re-raising [except] clause of
    [generate_structure] (which only logs) is the identity on results.
    Messages built with f-strings keep their template text.  [LibraryError]
    stands for a failure inside the ASE routines, named by the kind the
    design gives it. *)

From Stdlib Require Import Reals Lra Lia ZArith List String Ascii Bool.
Import ListNotations.

Local Open Scope string_scope.
Local Open Scope R_scope.

(** ** Exceptions and the error monad *)

Inductive exn : Type :=
| KeyError (key : string)
| ValueError (msg : string)
| TypeError (msg : string)
| LibraryError (kind : string).

Inductive result (A : Type) : Type :=
| Ok (a : A)
| Raise (e : exn).

Arguments Ok {A} a.
Arguments Raise {A} e.

Definition bind {A B : Type} (m : result A) (k : A -> result B) : result B :=
  match m with
  | Ok a => k a
  | Raise e => Raise e
  end.

(** [raise_if c e] is [if c: raise e]. *)
Definition raise_if (c : bool) (e : exn) : result unit :=
  if c then Raise e else Ok tt.

Notation "x <- m ;; k" := (bind m (fun x => k))
  (at level 61, m at next level, right associativity).
Notation "m ;;; k" := (bind m (fun _ => k))
  (at level 61, right associativity).

(** ** Comparisons of floats, as booleans *)

Definition Rleb (x y : R) : bool := if Rle_dec x y then true else false.
Definition Rltb (x y : R) : bool := if Rlt_dec x y then true else false.

(** ** Strings, lists and dicts *)

(** [str.lower()], on the ASCII letters. *)
Definition lower_ascii (c : ascii) : ascii :=
  let n := nat_of_ascii c in
  if (65 <=? n)%nat && (n <=? 90)%nat then ascii_of_nat (n + 32) else c.

Fixpoint lower (s : string) : string :=
  match s with
  | EmptyString => EmptyString
  | String c s' => String (lower_ascii c) (lower s')
  end.

(** [x in xs] for a list of strings. *)
Definition str_in (x : string) (xs : list string) : bool :=
  existsb (String.eqb x) xs.

(** A dict with string keys, in source order. *)
Definition dict (V : Type) : Type := list (string * V).

(** [d.get(k)] *)
Fixpoint dict_get {V : Type} (d : dict V) (k : string) : option V :=
  match d with
  | [] => None
  | (k', v) :: d' => if String.eqb k k' then Some v else dict_get d' k
  end.

(** [x is None] *)
Definition is_none {A : Type} (x : option A) : bool :=
  match x with
  | None => true
  | Some _ => false
  end.

(** [d[k]], which raises [KeyError] on a missing key. *)
Definition getitem {V : Type} (d : dict V) (k : string) : result V :=
  match dict_get d k with
  | Some v => Ok v
  | None => Raise (KeyError k)
  end.

(** ** constants.py *)

Record ElementProperties : Type := {
  atomic_number : Z;
  supported_structures : list string;
  lattice_constants : dict R;
  hcp_parameters : option (dict R)
}.

Definition ELEMENTS : dict ElementProperties := [
  ("Cu", {| atomic_number := 29; supported_structures := ["fcc"];
            lattice_constants := [("fcc", 361 / 100)];
            hcp_parameters := None |});
  ("Fe", {| atomic_number := 26; supported_structures := ["bcc"];
            lattice_constants := [("bcc", 287 / 100)];
            hcp_parameters := None |});
  ("Ti", {| atomic_number := 22; supported_structures := ["hcp"];
            lattice_constants := [("hcp", 295 / 100)];
            hcp_parameters := Some [("c_over_a", 1587 / 1000)] |});
  ("Al", {| atomic_number := 13; supported_structures := ["fcc"];
            lattice_constants := [("fcc", 405 / 100)];
            hcp_parameters := None |});
  ("Ni", {| atomic_number := 28; supported_structures := ["fcc"];
            lattice_constants := [("fcc", 352 / 100)];
            hcp_parameters := None |});
  ("Pt", {| atomic_number := 78; supported_structures := ["fcc"];
            lattice_constants := [("fcc", 392 / 100)];
            hcp_parameters := None |});
  ("Au", {| atomic_number := 79; supported_structures := ["fcc"];
            lattice_constants := [("fcc", 408 / 100)];
            hcp_parameters := None |});
  ("Ag", {| atomic_number := 47; supported_structures := ["fcc"];
            lattice_constants := [("fcc", 409 / 100)];
            hcp_parameters := None |});
  ("Zn", {| atomic_number := 30; supported_structures := ["hcp"];
            lattice_constants := [("hcp", 266 / 100)];
            hcp_parameters := Some [("c_over_a", 1856 / 1000)] |});
  ("Mg", {| atomic_number := 12; supported_structures := ["hcp"];
            lattice_constants := [("hcp", 321 / 100)];
            hcp_parameters := Some [("c_over_a", 1624 / 1000)] |})
].

Definition VALID_STRUCTURES : list string := ["fcc"; "bcc"; "hcp"].

Definition DEFAULT_SUPERCELL_SIZE : list Z := [2; 2; 2]%Z.

(** The c/a default of a registry entry: [hcp_parameters.get('c_over_a')]
    when [hcp_parameters] is not [None] ([get_c_over_a] of
    common_structures.py; lines 63-64 of generator.py inline it). *)
Definition get_c_over_a (element_props : ElementProperties) : option R :=
  match hcp_parameters element_props with
  | None => None
  | Some p => dict_get p "c_over_a"
  end.

(** ** validators.py: [validate_input]

    The [isinstance] checks on [element], [structure_type],
    [lattice_constant], the components of [size] and [c_over_a] are carried
    by the types of the arguments; the arity check of [size] remains.  The
    registry is an argument ([ELEMENTS] in the program). *)

Definition validate_input (registry : dict ElementProperties)
    (element structure_type : string) (lattice_constant : R)
    (size : list Z) (c_over_a : option R) : result unit :=
  raise_if (negb (List.length size =? 3)%nat)
    (TypeError "Size must be a 3-tuple of integers") ;;;
  match dict_get registry element with
  | None =>
      Raise (ValueError
        "Unsupported element: {element}. Supported elements: {list(ELEMENTS.keys())}")
  | Some element_props =>
      let structure_type := lower structure_type in
      raise_if (negb (str_in structure_type VALID_STRUCTURES))
        (ValueError
          "Invalid structure type: {structure_type}. Must be one of: {VALID_STRUCTURES}") ;;;
      raise_if (negb (str_in structure_type (supported_structures element_props)))
        (ValueError
          "Structure type {structure_type} is not supported for element {element}") ;;;
      raise_if (Rleb lattice_constant 0)
        (ValueError "Invalid lattice constant: {lattice_constant}. Must be positive") ;;;
      raise_if (existsb (fun s => (s <=? 0)%Z) size)
        (ValueError "Invalid supercell size: {size}. All dimensions must be positive") ;;;
      if String.eqb structure_type "hcp" then
        match c_over_a with
        | None =>
            match hcp_parameters element_props with
            | None =>
                Raise (ValueError "No default c/a ratio for {element}. Please provide one.")
            | Some _ => Ok tt
            end
        | Some r =>
            raise_if (Rleb r 0)
              (ValueError "HCP structures require a positive c/a ratio")
        end
      else Ok tt
  end.

(** ** The ASE objects the program works on

    [ase.build.bulk], [Atoms.repeat], [Atoms.get_scaled_positions] and
    [ase.geometry.cell_to_cellpar] belong to the ASE library, which is not
    part of the repository. *)

Definition vec : Type := (R * R * R)%type.
Definition mat : Type := (vec * vec * vec)%type.

Definition vadd (u v : vec) : vec :=
  let '(u0, u1, u2) := u in let '(v0, v1, v2) := v in (u0 + v0, u1 + v1, u2 + v2).

Definition vscale (k : R) (v : vec) : vec :=
  let '(v0, v1, v2) := v in (k * v0, k * v1, k * v2).

(** Row vector times matrix: [f0 * row0 + f1 * row1 + f2 * row2]. *)
Definition vec_mat (f : vec) (m : mat) : vec :=
  let '(f0, f1, f2) := f in
  let '(r0, r1, r2) := m in
  vadd (vadd (vscale f0 r0) (vscale f1 r1)) (vscale f2 r2).

Definition vec_tolist (v : vec) : list R :=
  let '(x, y, z) := v in [x; y; z].

Definition mat_tolist (m : mat) : list (list R) :=
  let '(r0, r1, r2) := m in [vec_tolist r0; vec_tolist r1; vec_tolist r2].

(** [np.all] of a predicate over the three components of a row. *)
Definition vec_all (p : R -> bool) (v : vec) : bool :=
  let '(x, y, z) := v in p x && p y && p z.

(** An [Atoms] object, by what its getters return. *)
Record Atoms : Type := {
  get_atomic_numbers : list Z;
  get_positions : list vec;
  get_cell : mat;
  get_pbc : bool * bool * bool
}.

Inductive LatticeFamily : Type := FCC | BCC | HCP.

(** [ase.data.chemical_symbols] (ASE is not under src/): the periodic table
    in order of atomic number; index 0 is the placeholder of ASE. *)
Definition chemical_symbols : list string := [
  "X"; "H"; "He"; "Li"; "Be"; "B"; "C"; "N"; "O"; "F"; "Ne";
  "Na"; "Mg"; "Al"; "Si"; "P"; "S"; "Cl"; "Ar"; "K"; "Ca";
  "Sc"; "Ti"; "V"; "Cr"; "Mn"; "Fe"; "Co"; "Ni"; "Cu"; "Zn";
  "Ga"; "Ge"; "As"; "Se"; "Br"; "Kr"; "Rb"; "Sr"; "Y"; "Zr";
  "Nb"; "Mo"; "Tc"; "Ru"; "Rh"; "Pd"; "Ag"; "Cd"; "In"; "Sn";
  "Sb"; "Te"; "I"; "Xe"; "Cs"; "Ba"; "La"; "Ce"; "Pr"; "Nd";
  "Pm"; "Sm"; "Eu"; "Gd"; "Tb"; "Dy"; "Ho"; "Er"; "Tm"; "Yb";
  "Lu"; "Hf"; "Ta"; "W"; "Re"; "Os"; "Ir"; "Pt"; "Au"; "Hg";
  "Tl"; "Pb"; "Bi"; "Po"; "At"; "Rn"; "Fr"; "Ra"; "Ac"; "Th";
  "Pa"; "U"; "Np"; "Pu"; "Am"; "Cm"; "Bk"; "Cf"; "Es"; "Fm";
  "Md"; "No"; "Lr"; "Rf"; "Db"; "Sg"; "Bh"; "Hs"; "Mt"; "Ds";
  "Rg"; "Cn"; "Nh"; "Fl"; "Mc"; "Lv"; "Ts"; "Og"
].

Fixpoint index_from (i : Z) (x : string) (xs : list string) : option Z :=
  match xs with
  | [] => None
  | y :: ys => if String.eqb x y then Some i else index_from (i + 1)%Z x ys
  end.

(** [ase.data.atomic_numbers]: the index of a symbol in [chemical_symbols]. *)
Definition atomic_numbers (symbol : string) : option Z :=
  index_from 0%Z symbol chemical_symbols.

(** Modelled from the spec: the Lattice Builder of section 4.1, which the
    program delegates to [ase.build.bulk] (not under src/).  The basis is
    in fractional coordinates of the conventional cell. *)
Definition basis (family : LatticeFamily) : list vec :=
  match family with
  | FCC => [(0, 0, 0); (1 / 2, 1 / 2, 0); (1 / 2, 0, 1 / 2); (0, 1 / 2, 1 / 2)]
  | BCC => [(0, 0, 0); (1 / 2, 1 / 2, 1 / 2)]
  | HCP => [(0, 0, 0); (1 / 3, 2 / 3, 1 / 2)]
  end.

(** Modelled from the spec: the cell matrix of section 4.1 (ASE's [bulk] is
    not under src/): [diag(a, a, a)] for the cubic families, rows
    [a(1,0,0)], [a(-1/2, sqrt 3 / 2, 0)], [(0,0,c)] for hcp, which has no
    cell without [c]. *)
Definition cell_matrix (family : LatticeFamily) (a : R) (c : option R)
    : option mat :=
  match family, c with
  | HCP, Some c =>
      Some (vscale a (1, 0, 0), vscale a (- (1 / 2), sqrt 3 / 2, 0), (0, 0, c))
  | HCP, None => None
  | _, _ => Some ((a, 0, 0), (0, a, 0), (0, 0, a))
  end.

(** Modelled from the spec: [build_unit_cell] of section 4.1, as the [Atoms]
    object that [ase.build.bulk] (not under src/) hands back: one atom of
    the named element per basis position, Cartesian position
    [f . cell_matrix], periodic along the three axes.  [c] is read for hcp
    only; a symbol ASE does not know has no atomic number. *)
Definition bulk (name : string) (crystalstructure : LatticeFamily)
    (a : R) (c : option R) : result Atoms :=
  match cell_matrix crystalstructure a c with
  | None => Raise (LibraryError "MissingParameterError")
  | Some cell =>
      match atomic_numbers name with
      | None => Raise (KeyError name)
      | Some number =>
          Ok {| get_atomic_numbers :=
                  map (fun _ => number) (basis crystalstructure);
                get_positions :=
                  map (fun f => vec_mat f cell) (basis crystalstructure);
                get_cell := cell;
                get_pbc := (true, true, true) |}
      end
  end.

(** [range(n)] *)
Definition range (n : Z) : list Z := map Z.of_nat (seq 0 (Z.to_nat n)).

Definition ivec (i j k : Z) : vec := (IZR i, IZR j, IZR k).

(** Modelled from the spec: the Supercell Tiler of section 4.2, which the
    program delegates to [Atoms.repeat] (not under src/).  Offsets
    [(i, j, k)] are enumerated outer to inner with the atoms of the unit
    cell innermost; every atom is shifted by [(i, j, k) . cell]; row [r] of
    the cell is scaled by the [r]-th replication count. *)
Definition tile (atoms : Atoms) (nx ny nz : Z) : Atoms :=
  let cell := get_cell atoms in
  let offsets :=
    flat_map (fun i => flat_map (fun j => map (fun k => ivec i j k) (range nz))
                                (range ny)) (range nx) in
  let '(r0, r1, r2) := cell in
  {| get_atomic_numbers := flat_map (fun _ => get_atomic_numbers atoms) offsets;
     get_positions :=
       flat_map (fun o => map (fun p => vadd p (vec_mat o cell)) (get_positions atoms))
                offsets;
     get_cell := (vscale (IZR nx) r0, vscale (IZR ny) r1, vscale (IZR nz) r2);
     get_pbc := get_pbc atoms |}.

(** Modelled from the spec: the contract of the tiler in section 4.2
    ([Atoms.repeat] of ASE is not under src/), for the call
    [atoms.repeat(size)]: it fails defensively on anything but three
    positive counts. *)
Definition atoms_repeat (atoms : Atoms) (size : list Z) : result Atoms :=
  match size with
  | [nx; ny; nz] =>
      if (0 <? nx)%Z && (0 <? ny)%Z && (0 <? nz)%Z
      then Ok (tile atoms nx ny nz)
      else Raise (LibraryError "InvalidReplicationError")
  | _ => Raise (LibraryError "InvalidReplicationError")
  end.

(** The two numerical routines of ASE that [validate_structure] calls.
    They are taken as an interface of total functions: what is proved about
    the validator holds for whatever arrays ASE hands back. *)
Class Geometry : Type := {
  (** [atoms.get_scaled_positions()]: one row of three per atom *)
  get_scaled_positions : Atoms -> list vec;
  (** [cell_to_cellpar(cell)]: three lengths, then three angles in degrees *)
  cell_to_cellpar : mat -> list R
}.

(** ** validators.py: [validate_structure] *)

Section Validator.
Context {G : Geometry}.

Definition validate_structure (atoms : Atoms) : result unit :=
  let cell := get_cell atoms in
  let scaled_positions := get_scaled_positions atoms in
  raise_if
    (negb (forallb (vec_all (fun x => Rleb 0 x && Rleb x 1)) scaled_positions))
    (ValueError "Some atoms are outside the unit cell") ;;;
  let cellpar := cell_to_cellpar cell in
  raise_if (existsb (fun l => Rleb l 0) (firstn 3 cellpar))
    (ValueError "Invalid cell parameters: some lengths are zero or negative") ;;;
  raise_if (existsb (fun x => Rltb 180 (Rabs x)) (skipn 3 cellpar))
    (ValueError "Invalid cell parameters: angles must be between 0 and 180 degrees").
End Validator.

(** ** generator.py *)

(** The [metadata] entry of the returned dict. *)
Module Metadata.
Record t : Type := {
  element : string;
  structure_type : string;
  lattice_constant : R;
  c_over_a : option R;
  num_atoms : Z;
  supercell_size : list Z
}.
End Metadata.

(** The dict that [generate_structure] returns. *)
Record StructureData : Type := {
  positions : list (list R);
  numbers : list Z;
  cell : list (list R);
  pbc : list bool;
  metadata : Metadata.t
}.

(** The arguments of a call once the defaults are resolved and
    [validate_input] has accepted them. *)
Record Request : Type := {
  req_element : string;
  req_structure_type : string;
  req_lattice_constant : R;
  req_size : list Z;
  req_c_over_a : option R
}.

Section Generator.
Variable registry : dict ElementProperties.
Context {G : Geometry}.

(** Lines 49-67 of [generate_structure]: normalise the structure type,
    resolve the defaults from the registry, validate the input. *)
Definition resolve_request (element structure_type : string)
    (lattice_constant : option R) (size : list Z) (c_over_a : option R)
    : result Request :=
  let structure_type := lower structure_type in
  element_props <- getitem registry element ;;
  lattice_constant <-
    match lattice_constant with
    | Some a => Ok a
    | None =>
        match dict_get (lattice_constants element_props) structure_type with
        | Some a => Ok a
        | None =>
            Raise (ValueError
              "No default lattice constant for {element} {structure_type}. Please provide one.")
        end
    end ;;
  let c_over_a :=
    if String.eqb structure_type "hcp" && is_none c_over_a then
      match hcp_parameters element_props with
      | Some p => dict_get p "c_over_a"
      | None => c_over_a
      end
    else c_over_a in
  validate_input registry element structure_type lattice_constant size c_over_a ;;;
  Ok {| req_element := element;
        req_structure_type := structure_type;
        req_lattice_constant := lattice_constant;
        req_size := size;
        req_c_over_a := c_over_a |}.

(** Lines 71-84: the unit cell, by structure type. *)
Definition base_structure (rq : Request) : result Atoms :=
  let structure_type := req_structure_type rq in
  let lattice_constant := req_lattice_constant rq in
  if String.eqb structure_type "hcp" then
    match req_c_over_a rq with
    | None => Raise (ValueError "c/a ratio is required for HCP structures")
    | Some c_over_a =>
        let c := lattice_constant * c_over_a in
        bulk (req_element rq) HCP lattice_constant (Some c)
    end
  else if String.eqb structure_type "fcc" then
    bulk (req_element rq) FCC lattice_constant None
  else if String.eqb structure_type "bcc" then
    bulk (req_element rq) BCC lattice_constant None
  else Raise (ValueError "Unknown structure: {structure_type}").

(** Lines 92-106: the returned dict. *)
Definition structure_data (rq : Request) (atoms : Atoms) : StructureData :=
  let structure_type := req_structure_type rq in
  {| positions := map vec_tolist (get_positions atoms);
     numbers := get_atomic_numbers atoms;
     cell := mat_tolist (get_cell atoms);
     pbc := let '(p0, p1, p2) := get_pbc atoms in [p0; p1; p2];
     metadata :=
       {| Metadata.element := req_element rq;
          Metadata.structure_type := structure_type;
          Metadata.lattice_constant := req_lattice_constant rq;
          Metadata.c_over_a :=
            if String.eqb structure_type "hcp" then req_c_over_a rq else None;
          Metadata.num_atoms := Z.of_nat (List.length (get_positions atoms));
          Metadata.supercell_size := req_size rq |} |}.

(** Lines 69-108: the body of the [try]. *)
Definition build_structure (rq : Request) : result StructureData :=
  atoms <- base_structure rq ;;
  atoms <- atoms_repeat atoms (req_size rq) ;;
  validate_structure atoms ;;;
  Ok (structure_data rq atoms).

Definition generate_structure (element structure_type : string)
    (lattice_constant : option R) (size : list Z) (c_over_a : option R)
    : result StructureData :=
  rq <- resolve_request element structure_type lattice_constant size c_over_a ;;
  build_structure rq.
End Generator.

(** ** The geometry of ASE, in exact arithmetic *)

Definition dot (u v : vec) : R :=
  let '(u0, u1, u2) := u in let '(v0, v1, v2) := v in u0 * v0 + u1 * v1 + u2 * v2.

(** [np.linalg.norm] of a row *)
Definition norm (v : vec) : R := sqrt (dot v v).

Definition det3 (m : mat) : R :=
  let '((a, b, c), (d, e, f), (g, h, i)) := m in
  a * (e * i - f * h) - b * (d * i - f * g) + c * (d * h - e * g).

(** Modelled from the spec: the fractional coordinate of section 4.3, the
    [s] with [s . cell = position] ([Cell.scaled_positions] of ASE is not
    under src/), by Cramer's rule; meaningful for a cell of non-zero
    determinant. *)
Definition scaled_position (cell : mat) (position : vec) : vec :=
  let '(r0, r1, r2) := cell in
  let d := det3 cell in
  (det3 (position, r1, r2) / d, det3 (r0, position, r2) / d, det3 (r0, r1, position) / d).

(** [x %= 1.0], applied twice, when [fold] is set *)
Definition wrap (fold : bool) (x : R) : R :=
  if fold then frac_part (frac_part x) else x.

(** Modelled from the spec: check 1 of section 4.3 computes the fractional
    coordinate of every atom relative to the cell
    ([Atoms.get_scaled_positions] of ASE is not under src/).  The routine
    of ASE has a flag [wrap], set by default, that folds the coordinates
    along periodic axes into the unit interval; the design does not fold.
    The flag is an argument here and both settings are covered. *)
Definition ase_get_scaled_positions (wrap_flag : bool) (atoms : Atoms) : list vec :=
  let '(p0, p1, p2) := get_pbc atoms in
  map (fun position =>
         let '(s0, s1, s2) := scaled_position (get_cell atoms) position in
         (wrap (wrap_flag && p0) s0, wrap (wrap_flag && p1) s1, wrap (wrap_flag && p2) s2))
      (get_positions atoms).

(** The angle in degrees between two rows of lengths [lj] and [lk], a right
    angle when the product of the lengths is negligible. *)
Definition cell_angle (lj lk : R) (vj vk : vec) : R :=
  let ll := lj * lk in
  if Rltb (/ 10 ^ 16) ll then 180 / PI * acos (dot vj vk / ll) else 90.

(** Modelled from the spec: the six cell parameters of section 4.3, three
    lengths and three inter-axis angles in degrees ([cell_to_cellpar] of ASE
    is not under src/): alpha between rows 1 and 2, beta between rows 0 and
    2, gamma between rows 0 and 1. *)
Definition ase_cell_to_cellpar (cell : mat) : list R :=
  let '(v0, v1, v2) := cell in
  let l0 := norm v0 in
  let l1 := norm v1 in
  let l2 := norm v2 in
  [l0; l1; l2; cell_angle l2 l1 v2 v1; cell_angle l0 l2 v0 v2; cell_angle l1 l0 v1 v0].

Definition ase_geometry (wrap_flag : bool) : Geometry :=
  {| get_scaled_positions := ase_get_scaled_positions wrap_flag;
     cell_to_cellpar := ase_cell_to_cellpar |}.

(** A geometry that hands back given arrays, to run the checks of
    [validate_structure] on chosen scaled positions and cell parameters. *)
Definition reported (scaled_positions : list vec) (cellpar : list R) : Geometry :=
  {| get_scaled_positions := fun _ => scaled_positions;
     cell_to_cellpar := fun _ => cellpar |}.

(** ** Vocabulary of the properties *)

(** The lattice family a normalised structure type names. *)
Definition structure_family (structure_type : string) : option LatticeFamily :=
  if String.eqb structure_type "fcc" then Some FCC
  else if String.eqb structure_type "bcc" then Some BCC
  else if String.eqb structure_type "hcp" then Some HCP
  else None.

(** The [c] that [generate_structure] hands to [bulk]: [a * c_over_a] for
    hcp, none for the cubic families. *)
Definition c_parameter (family : LatticeFamily) (a : R) (c_over_a : option R)
    : option R :=
  match family with
  | HCP => option_map (fun r => a * r) c_over_a
  | _ => None
  end.

(** Atoms per conventional cell. *)
Definition basis_count (family : LatticeFamily) : Z :=
  match family with
  | FCC => 4
  | BCC => 2
  | HCP => 2
  end.

(** A fractional coordinate inside the closed unit cell. *)
Definition in_unit_cell (s : vec) : Prop :=
  let '(x, y, z) := s in 0 <= x <= 1 /\ 0 <= y <= 1 /\ 0 <= z <= 1.

(** [x] equals [r] to within a relative error of [1e-10]. *)
Definition within_1e10 (x r : R) : Prop :=
  Rabs (x - r) <= 1 / 10000000000 * Rabs r.

(** [needle in message] for two strings. *)
Definition mentions (message needle : string) : bool :=
  match String.index 0 needle message with
  | Some _ => true
  | None => false
  end.

(** [np.linalg.norm] of a row of the returned [cell], a list of floats. *)
Definition list_norm (v : list R) : R :=
  sqrt (fold_right (fun x acc => x * x + acc) 0 v).

(** Row [i] of a nested list. *)
Definition row (i : nat) (m : list (list R)) : list R := nth i m [].

(** The rows of a unit cell scaled by the replication counts. *)
Definition scale_rows (nx ny nz : Z) (unit_cell : mat) : mat :=
  let '(a, b, c) := unit_cell in
  (vscale (IZR nx) a, vscale (IZR ny) b, vscale (IZR nz) c).

(** ** Sample structures *)

Definition unit_cube : mat := ((1, 0, 0), (0, 1, 0), (0, 0, 1)).


(** One copper atom at the origin of a slab cell: rows [(1,0,0)], [(0,1,0)]
    and a zero third row, periodic in the plane. *)
Definition atom_in_slab : Atoms :=
  {| get_atomic_numbers := [29%Z];
     get_positions := [(0, 0, 0)];
     get_cell := ((1, 0, 0), (0, 1, 0), (0, 0, 0));
     get_pbc := (true, true, false) |}.

(** The arrays ASE hands back for [atom_in_slab]: the atom at the origin,
    lengths 1, 1, 0 and right angles. *)
Definition slab_geometry : Geometry :=
  reported [(0, 0, 0)] [1; 1; 0; 90; 90; 90].

(** One copper atom at the origin of a cell whose rows a and b are nearly
    parallel: [(1,0,0)], [(1, 1e-9, 0)], [(0,0,1)]. *)
Definition atom_in_flat_cell : Atoms :=
  {| get_atomic_numbers := [29%Z];
     get_positions := [(0, 0, 0)];
     get_cell := ((1, 0, 0), (1, 1 / 1000000000, 0), (0, 0, 1));
     get_pbc := (true, true, true) |}.

(** The arrays a binary64 evaluation hands back for [atom_in_flat_cell]:
    the length of b and the cosine of gamma both round to 1, so gamma is
    reported as 0 degrees. *)
Definition flat_geometry : Geometry :=
  reported [(0, 0, 0)] [1; 1; 1; 90; 90; 0].

(** Cell parameters with an angle beyond 180 degrees. *)
Definition reflex_geometry : Geometry :=
  reported [(0, 0, 0)] [1; 1; 1; 90; 90; 200].

(** ** common_structures.py

    The output directory is a dict from file name to the record that
    [json.dump] writes there; [open(filepath, 'w')] replaces what the file
    held.  Logging and printing are left out. *)

(** [d[k] = v] *)
Fixpoint dict_set {V : Type} (d : dict V) (k : string) (v : V) : dict V :=
  match d with
  | [] => [(k, v)]
  | (k', v') :: d' =>
      if String.eqb k k' then (k, v) :: d' else (k', v') :: dict_set d' k v
  end.

Definition REPRESENTATIVE_STRUCTURES : dict string :=
  [("fcc", "Cu"); ("bcc", "Fe"); ("hcp", "Ti")].

(** One entry of the list [structures]: the keyword arguments of a call. *)
Record CommonStructure : Type := {
  cs_element : string;
  cs_structure_type : string;
  cs_size : list Z;
  cs_lattice_constant : R;
  cs_c_over_a : option R
}.

(** [f"structure_{structure['structure_type']}.json"] *)
Definition structure_filename (structure_type : string) : string :=
  "structure_" ++ structure_type ++ ".json".

Section CommonStructures.
Variable registry : dict ElementProperties.
Context {G : Geometry}.

(** Lines 51-63: the list comprehension over
    [REPRESENTATIVE_STRUCTURES.items()].  The filter reads
    [ELEMENTS[element]] first; the entry then reads
    [ELEMENTS[element].lattice_constants[struct_type]]; both raise
    [KeyError] on a missing key. *)
Fixpoint common_structures (items : dict string) : result (list CommonStructure) :=
  match items with
  | [] => Ok []
  | (struct_type, element) :: items' =>
      element_props <- getitem registry element ;;
      if str_in struct_type (supported_structures element_props) then
        lattice_constant <- getitem (lattice_constants element_props) struct_type ;;
        rest <- common_structures items' ;;
        Ok ({| cs_element := element;
               cs_structure_type := struct_type;
               cs_size := DEFAULT_SUPERCELL_SIZE;
               cs_lattice_constant := lattice_constant;
               cs_c_over_a :=
                 if String.eqb struct_type "hcp"
                 then get_c_over_a element_props
                 else None |} :: rest)
      else common_structures items'
  end.

(** Lines 67-88: one turn of the loop.  A structure that is generated is
    written to its file; an exception is logged and swallowed. *)
Definition save_structure (directory : dict StructureData)
    (structure : CommonStructure) : dict StructureData :=
  match generate_structure registry (cs_element structure)
          (cs_structure_type structure) (Some (cs_lattice_constant structure))
          (cs_size structure) (cs_c_over_a structure) with
  | Ok data =>
      dict_set directory (structure_filename (cs_structure_type structure)) data
  | Raise _ => directory
  end.

(** [generate_common_structures(output_dir)], on the content of
    [output_dir]. *)
Definition generate_common_structures (directory : dict StructureData)
    : result (dict StructureData) :=
  structures <- common_structures REPRESENTATIVE_STRUCTURES ;;
  Ok (fold_left save_structure structures directory).
End CommonStructures.

(** The file names the batch can write. *)
Definition common_filenames : list string :=
  map (fun item => structure_filename (fst item)) REPRESENTATIVE_STRUCTURES.

(** ** Fractional coordinates *)


(** What [get_scaled_positions] does to the fractional coordinate of one
    atom: the component along an axis is folded into the unit interval when
    [wrap] is set and the axis is periodic, and left as it is otherwise. *)
Definition fold_axes (wrap_flag : bool) (periodic : bool * bool * bool) (s : vec)
    : vec :=
  let '(p0, p1, p2) := periodic in
  let '(s0, s1, s2) := s in
  (wrap (wrap_flag && p0) s0, wrap (wrap_flag && p1) s1, wrap (wrap_flag && p2) s2).


(** ** Rounded arithmetic *)

(** The cell of an hcp structure and the ratio of its axes, with every
    arithmetic operation followed by a rounding [fl]: the computation of
    the program in floating point.  At [fl := fun x => x] these are the
    exact definitions above. *)
Section Rounded.
Variable fl : R -> R.

Definition fmul (x y : R) : R := fl (x * y).
Definition fadd (x y : R) : R := fl (x + y).
Definition fdiv (x y : R) : R := fl (x / y).
Definition fsqrt (x : R) : R := fl (sqrt x).

Definition fvscale (k : R) (v : vec) : vec :=
  let '(v0, v1, v2) := v in (fmul k v0, fmul k v1, fmul k v2).

(** [c = float(lattice_constant) * float(c_over_a)]. *)
Definition rounded_c (a r : R) : R := fmul a r.

(** Modelled from the spec: the hcp rows of [cell_matrix], rounded. *)
Definition rounded_hcp_matrix (a c : R) : mat :=
  (fvscale a (1, 0, 0), fvscale a (- (1 / 2), fdiv (fsqrt 3) 2, 0), (0, 0, c)).

(** Modelled from the spec: [scale_rows], rounded; the counts are converted
    to floating point first. *)
Definition rounded_scale_rows (nx ny nz : Z) (unit_cell : mat) : mat :=
  let '(a, b, c) := unit_cell in
  (fvscale (fl (IZR nx)) a, fvscale (fl (IZR ny)) b, fvscale (fl (IZR nz)) c).

(** The [cell] of the record returned for an hcp request. *)
Definition rounded_hcp_cell (a r : R) (nx ny nz : Z) : list (list R) :=
  mat_tolist (rounded_scale_rows nx ny nz (rounded_hcp_matrix a (rounded_c a r))).

(** [list_norm], rounded. *)
Definition rounded_norm (v : list R) : R :=
  fsqrt (fold_right (fun x acc => fadd (fmul x x) acc) 0 v).

(** Norm of row 2 over norm of row 0. *)
Definition rounded_axis_ratio (cell : list (list R)) : R :=
  fdiv (rounded_norm (row 2 cell)) (rounded_norm (row 0 cell)).

End Rounded.

(** A unit roundoff above that of binary64 ([2^-53]). *)
Definition unit_roundoff : R := 1 / 1000000000000000.

(** The standard model of floating-point arithmetic: zero is rounded to
    zero, and a number of magnitude between [eta] and [omega] (no underflow,
    no overflow) is rounded with relative error at most [unit_roundoff]. *)
Definition accurate (fl : R -> R) (eta omega : R) : Prop :=
  fl 0 = 0 /\
  forall x, eta <= Rabs x <= omega -> Rabs (fl x - x) <= unit_roundoff * Rabs x.

(** [q] is well inside the range on which rounding is accurate. *)
Definition normal (eta omega q : R) : Prop := 2 * eta <= q /\ 2 * q <= omega.

(** The quantities that the computation of the axis ratio goes through stay
    in range. *)
Definition in_range (eta omega a r : R) (nx nz : Z) : Prop :=
  normal eta omega a /\
  normal eta omega r /\
  normal eta omega (IZR nx) /\
  normal eta omega (IZR nz) /\
  normal eta omega (a * r) /\
  normal eta omega (IZR nx * a) /\
  normal eta omega ((IZR nx * a) * (IZR nx * a)) /\
  normal eta omega (IZR nz * (a * r)) /\
  normal eta omega ((IZR nz * (a * r)) * (IZR nz * (a * r))) /\
  normal eta omega (r * IZR nz / IZR nx).

(** [x] approximates [q > 0] with relative error at most [e]. *)
Definition near (e x q : R) : Prop := 0 < q /\ q * (1 - e) <= x <= q * (1 + e).

(** A rounding with relative error [10^-16]. *)
Definition inflate (x : R) : R := x * (1 + 1 / 10000000000000000).

(** ** Resolved defaults *)

(** The lattice constant a call works with: the caller's, or the default of
    the registry entry for the normalised structure type. *)
Definition resolved_lattice_constant (element_props : ElementProperties)
    (structure_type : string) (lattice_constant : option R) : option R :=
  match lattice_constant with
  | Some a => Some a
  | None => dict_get (lattice_constants element_props) structure_type
  end.

(** The c/a ratio a call works with: for hcp the caller's, or the default
    of the registry entry; otherwise what the caller passed. *)
Definition resolved_c_over_a (element_props : ElementProperties)
    (structure_type : string) (c_over_a : option R) : option R :=
  if String.eqb structure_type "hcp" then
    match c_over_a with
    | Some r => Some r
    | None => get_c_over_a element_props
    end
  else c_over_a.

(** One copper atom at [(3/2, 0, 0)] in a unit cube that is periodic along
    its three axes. *)
Definition atom_outside_periodic_cube : Atoms :=
  {| get_atomic_numbers := [29%Z];
     get_positions := [(3 / 2, 0, 0)];
     get_cell := unit_cube;
     get_pbc := (true, true, true) |}.

(** A registry with two hcp metals that lack a c/a default: cobalt without
    hcp parameters, osmium with an empty dict of them. *)
Definition bare_hcp_registry : dict ElementProperties := [
  ("Co", {| atomic_number := 27; supported_structures := ["hcp"];
            lattice_constants := [("hcp", 251 / 100)];
            hcp_parameters := None |});
  ("Os", {| atomic_number := 76; supported_structures := ["hcp"];
            lattice_constants := [("hcp", 273 / 100)];
            hcp_parameters := Some [] |})
].

(** The two messages that [generate_structure] has in its text or reaches
    through [validate_input] but can never raise. *)
Definition dead_error (e : exn) : Prop :=
  e = ValueError
        "Unsupported element: {element}. Supported elements: {list(ELEMENTS.keys())}" \/
  e = ValueError "Unknown structure: {structure_type}".

(** * Properties *)

(** ** Booleans, the error monad *)

Lemma Rleb_true (x y : R) : Rleb x y = true <-> x <= y.
Proof. unfold Rleb. destruct (Rle_dec x y); split; intros; congruence. Qed.

Lemma Rleb_false (x y : R) : Rleb x y = false <-> y < x.
Proof.
  unfold Rleb. destruct (Rle_dec x y); split; intros; try congruence; lra.
Qed.

Lemma Rltb_true (x y : R) : Rltb x y = true <-> x < y.
Proof. unfold Rltb. destruct (Rlt_dec x y); split; intros; congruence. Qed.

Lemma Rltb_false (x y : R) : Rltb x y = false <-> y <= x.
Proof.
  unfold Rltb. destruct (Rlt_dec x y); split; intros; try congruence; lra.
Qed.

Lemma bind_Ok {A B : Type} (m : result A) (k : A -> result B) (b : B) :
  bind m k = Ok b -> exists a, m = Ok a /\ k a = Ok b.
Proof. destruct m as [a|e]; simpl; intros H; [eauto | discriminate]. Qed.

Lemma bind_Raise {A B : Type} (m : result A) (k : A -> result B) (e : exn) :
  m = Raise e -> bind m k = Raise e.
Proof. intros ->. reflexivity. Qed.

Lemma raise_if_Ok (c : bool) (e : exn) (u : unit) :
  raise_if c e = Ok u -> c = false.
Proof. destruct c; simpl; congruence. Qed.

Lemma raise_if_false (e : exn) : raise_if false e = Ok tt.
Proof. reflexivity. Qed.

Lemma raise_if_true (e : exn) : raise_if true e = Raise e.
Proof. reflexivity. Qed.

(** Split a successful sequence of statements into its steps. *)
Ltac bind_inv H :=
  match type of H with
  | bind (raise_if _ _) _ = Ok _ =>
      let u := fresh "u" in
      let H1 := fresh "Hc" in
      let H2 := fresh H in
      apply bind_Ok in H; destruct H as (u & H1 & H2);
      apply raise_if_Ok in H1
  | bind _ _ = Ok _ =>
      let a := fresh "a" in
      let H1 := fresh "Hs" in
      let H2 := fresh H in
      apply bind_Ok in H; destruct H as (a & H1 & H2)
  end.

Lemma existsb_false_Forall {A : Type} (p : A -> bool) (l : list A) :
  existsb p l = false <-> Forall (fun x => p x = false) l.
Proof.
  induction l as [|x l IH]; simpl.
  - split; [constructor | reflexivity].
  - rewrite orb_false_iff, IH. split.
    + intros [Hx Hl]. now constructor.
    + intros H. inversion H; subst. now split.
Qed.

(** ** What an accepted input looks like *)

Lemma validate_input_Ok registry element structure_type lattice_constant size c_over_a u :
  validate_input registry element structure_type lattice_constant size c_over_a = Ok u ->
  exists nx ny nz element_props,
    size = [nx; ny; nz] /\ (0 < nx)%Z /\ (0 < ny)%Z /\ (0 < nz)%Z /\
    dict_get registry element = Some element_props /\
    str_in (lower structure_type) VALID_STRUCTURES = true /\
    str_in (lower structure_type) (supported_structures element_props) = true /\
    0 < lattice_constant /\
    (lower structure_type = "hcp" -> forall r, c_over_a = Some r -> 0 < r).
Proof.
  unfold validate_input. intros H.
  bind_inv H. apply negb_false_iff, Nat.eqb_eq in Hc.
  destruct (dict_get registry element) as [element_props|]; [|discriminate].
  bind_inv H0. bind_inv H1. bind_inv H0. bind_inv H1.
  apply negb_false_iff in Hc0, Hc1. apply Rleb_false in Hc2.
  apply existsb_false_Forall in Hc3.
  destruct size as [|nx [|ny [|nz [|? ?]]]]; try discriminate.
  inversion Hc3 as [|? ? Hx Hc4]; subst. inversion Hc4 as [|? ? Hy Hc5]; subst.
  inversion Hc5 as [|? ? Hz _]; subst.
  apply Z.leb_gt in Hx, Hy, Hz.
  exists nx, ny, nz, element_props. repeat split; auto.
  intros Hhcp r ->. rewrite Hhcp in H0. simpl in H0.
  apply raise_if_Ok in H0. now apply Rleb_false in H0.
Qed.

Lemma lower_idempotent (s : string) : lower (lower s) = lower s.
Proof.
  induction s as [|c s IH]; simpl; [reflexivity|]. f_equal; [|exact IH].
  unfold lower_ascii.
  destruct ((65 <=? nat_of_ascii c)%nat && (nat_of_ascii c <=? 90)%nat) eqn:E.
  - apply andb_true_iff in E. destruct E as [E1 E2].
    apply Nat.leb_le in E1, E2.
    assert (Hn : (nat_of_ascii c + 32 < 256)%nat) by lia.
    rewrite nat_ascii_embedding by exact Hn.
    destruct ((65 <=? nat_of_ascii c + 32)%nat && (nat_of_ascii c + 32 <=? 90)%nat) eqn:E'.
    + apply andb_true_iff in E'. destruct E' as [_ E']. apply Nat.leb_le in E'. lia.
    + reflexivity.
  - rewrite E. reflexivity.
Qed.

(** ** The unit cell and its tiling *)

Lemma basis_length (family : LatticeFamily) :
  Z.of_nat (List.length (basis family)) = basis_count family.
Proof. destruct family; reflexivity. Qed.

Lemma bulk_Ok name family a c unit :
  bulk name family a c = Ok unit ->
  exists unit_cell number,
    cell_matrix family a c = Some unit_cell /\
    atomic_numbers name = Some number /\
    get_atomic_numbers unit = map (fun _ => number) (basis family) /\
    get_positions unit = map (fun f => vec_mat f unit_cell) (basis family) /\
    get_cell unit = unit_cell /\
    get_pbc unit = (true, true, true).
Proof.
  unfold bulk. intros H.
  destruct (cell_matrix family a c) as [unit_cell|]; [|discriminate].
  destruct (atomic_numbers name) as [number|]; [|discriminate].
  injection H as <-. exists unit_cell, number. simpl. repeat split.
Qed.

Lemma flat_map_length_const {A B : Type} (f : A -> list B) (l : list A) (k : nat) :
  (forall x, List.length (f x) = k) ->
  List.length (flat_map f l) = (List.length l * k)%nat.
Proof.
  intros Hf. induction l as [|x l IH]; simpl; [reflexivity|].
  rewrite length_app, Hf, IH. reflexivity.
Qed.

Lemma range_length (n : Z) : List.length (range n) = Z.to_nat n.
Proof. unfold range. now rewrite length_map, length_seq. Qed.

Lemma tile_positions_length atoms nx ny nz :
  List.length (get_positions (tile atoms nx ny nz)) =
  (Z.to_nat nx * Z.to_nat ny * Z.to_nat nz * List.length (get_positions atoms))%nat.
Proof.
  unfold tile. destruct (get_cell atoms) as [[r0 r1] r2]. simpl.
  rewrite flat_map_length_const with (k := List.length (get_positions atoms))
    by (intros; apply length_map).
  f_equal.
  rewrite flat_map_length_const with (k := (Z.to_nat ny * Z.to_nat nz)%nat).
  - rewrite range_length. lia.
  - intros i. rewrite flat_map_length_const with (k := Z.to_nat nz).
    + now rewrite range_length.
    + intros j. now rewrite length_map, range_length.
Qed.

Lemma tile_numbers_length atoms nx ny nz :
  List.length (get_atomic_numbers (tile atoms nx ny nz)) =
  (Z.to_nat nx * Z.to_nat ny * Z.to_nat nz * List.length (get_atomic_numbers atoms))%nat.
Proof.
  unfold tile. destruct (get_cell atoms) as [[r0 r1] r2]. simpl.
  rewrite flat_map_length_const with (k := List.length (get_atomic_numbers atoms))
    by reflexivity.
  f_equal.
  rewrite flat_map_length_const with (k := (Z.to_nat ny * Z.to_nat nz)%nat).
  - rewrite range_length. lia.
  - intros i. rewrite flat_map_length_const with (k := Z.to_nat nz).
    + now rewrite range_length.
    + intros j. now rewrite length_map, range_length.
Qed.

Lemma tile_numbers_const atoms nx ny nz number :
  Forall (eq number) (get_atomic_numbers atoms) ->
  Forall (eq number) (get_atomic_numbers (tile atoms nx ny nz)).
Proof.
  intros H. unfold tile. destruct (get_cell atoms) as [[r0 r1] r2]. simpl.
  apply Forall_flat_map. apply Forall_forall. intros o _. exact H.
Qed.

Lemma tile_cell atoms nx ny nz :
  get_cell (tile atoms nx ny nz) = scale_rows nx ny nz (get_cell atoms).
Proof.
  unfold tile, scale_rows. destruct (get_cell atoms) as [[r0 r1] r2]. reflexivity.
Qed.

Lemma tile_pbc atoms nx ny nz :
  get_pbc (tile atoms nx ny nz) = get_pbc atoms.
Proof. unfold tile. destruct (get_cell atoms) as [[r0 r1] r2]. reflexivity. Qed.

(** The tiler in the words of the design: the atom of offset [(i, j, k)]
    and fractional position [f] sits at [(f + (i, j, k)) . unit cell]. *)
Lemma tile_position_spec (f o : vec) (unit_cell : mat) :
  vadd (vec_mat f unit_cell) (vec_mat o unit_cell) = vec_mat (vadd f o) unit_cell.
Proof.
  destruct f as [[f0 f1] f2], o as [[o0 o1] o2].
  destruct unit_cell as [[[[a0 a1] a2] [[b0 b1] b2]] [[c0 c1] c2]].
  unfold vec_mat, vadd, vscale. f_equal; [f_equal|]; ring.
Qed.

Lemma atoms_repeat_Ok atoms size tiled :
  atoms_repeat atoms size = Ok tiled ->
  exists nx ny nz,
    size = [nx; ny; nz] /\ (0 < nx)%Z /\ (0 < ny)%Z /\ (0 < nz)%Z /\
    tiled = tile atoms nx ny nz.
Proof.
  unfold atoms_repeat. intros H.
  destruct size as [|nx [|ny [|nz [|? ?]]]]; try discriminate.
  destruct ((0 <? nx)%Z && (0 <? ny)%Z && (0 <? nz)%Z) eqn:E; [|discriminate].
  apply andb_true_iff in E. destruct E as [E Ez].
  apply andb_true_iff in E. destruct E as [Ex Ey].
  apply Z.ltb_lt in Ex, Ey, Ez. injection H as <-.
  exists nx, ny, nz. repeat split; assumption.
Qed.

(** ** Anatomy of a successful generation *)

Lemma str_in_valid (s : string) :
  str_in s VALID_STRUCTURES = true -> s = "fcc" \/ s = "bcc" \/ s = "hcp".
Proof.
  unfold str_in, VALID_STRUCTURES. simpl. intros H.
  repeat (apply orb_true_iff in H; destruct H as [H|H]);
    try discriminate; apply String.eqb_eq in H; auto.
Qed.

Section GeneratorFacts.
Variable registry : dict ElementProperties.
Context {G : Geometry}.

Lemma resolve_request_Ok element structure_type lattice_constant size c_over_a rq :
  resolve_request registry element structure_type lattice_constant size c_over_a = Ok rq ->
  exists element_props nx ny nz,
    dict_get registry element = Some element_props /\
    req_element rq = element /\
    req_structure_type rq = lower structure_type /\
    req_size rq = size /\
    size = [nx; ny; nz] /\ (0 < nx)%Z /\ (0 < ny)%Z /\ (0 < nz)%Z /\
    0 < req_lattice_constant rq /\
    (lattice_constant = Some (req_lattice_constant rq) \/
     lattice_constant = None /\
     dict_get (lattice_constants element_props) (lower structure_type) =
       Some (req_lattice_constant rq)) /\
    str_in (lower structure_type) VALID_STRUCTURES = true /\
    str_in (lower structure_type) (supported_structures element_props) = true /\
    req_c_over_a rq =
      (if String.eqb (lower structure_type) "hcp"
       then match c_over_a with
            | Some r => Some r
            | None => get_c_over_a element_props
            end
       else c_over_a) /\
    (lower structure_type = "hcp" -> forall r, req_c_over_a rq = Some r -> 0 < r).
Proof.
  unfold resolve_request, getitem. intros H.
  destruct (dict_get registry element) as [element_props|] eqn:Hreg; [|discriminate].
  simpl in H. bind_inv H. bind_inv H0. injection H1 as <-. simpl.
  apply validate_input_Ok in Hs0.
  destruct Hs0 as (nx & ny & nz & props' & -> & Hx & Hy & Hz & Hreg' & Hv & Hsup & Ha & Hr).
  rewrite lower_idempotent in Hv, Hsup, Hr.
  rewrite Hreg in Hreg'. injection Hreg' as <-.
  exists element_props, nx, ny, nz. repeat split; auto.
  - destruct lattice_constant as [a'|].
    + left. congruence.
    + right. split; [reflexivity|].
      destruct (dict_get (lattice_constants element_props) (lower structure_type));
        congruence.
  - unfold get_c_over_a.
    destruct (String.eqb (lower structure_type) "hcp"), c_over_a; reflexivity.
Qed.

Lemma base_structure_Ok rq unit :
  base_structure rq = Ok unit ->
  exists family,
    structure_family (req_structure_type rq) = Some family /\
    bulk (req_element rq) family (req_lattice_constant rq)
      (c_parameter family (req_lattice_constant rq) (req_c_over_a rq)) = Ok unit.
Proof.
  unfold base_structure, structure_family. intros H.
  destruct (String.eqb (req_structure_type rq) "hcp") eqn:Eh.
  - apply String.eqb_eq in Eh. rewrite Eh. simpl.
    destruct (req_c_over_a rq) as [r|]; [|discriminate].
    exists HCP. split; [reflexivity | exact H].
  - destruct (String.eqb (req_structure_type rq) "fcc") eqn:Ef.
    + exists FCC. split; [reflexivity | exact H].
    + destruct (String.eqb (req_structure_type rq) "bcc") eqn:Eb; [|discriminate].
      exists BCC. split; [reflexivity | exact H].
Qed.

Lemma generate_structure_Ok element structure_type lattice_constant size c_over_a s :
  generate_structure registry element structure_type lattice_constant size c_over_a = Ok s ->
  exists rq family unit nx ny nz,
    resolve_request registry element structure_type lattice_constant size c_over_a = Ok rq /\
    structure_family (lower structure_type) = Some family /\
    bulk element family (req_lattice_constant rq)
      (c_parameter family (req_lattice_constant rq) (req_c_over_a rq)) = Ok unit /\
    size = [nx; ny; nz] /\ (0 < nx)%Z /\ (0 < ny)%Z /\ (0 < nz)%Z /\
    validate_structure (tile unit nx ny nz) = Ok tt /\
    s = structure_data rq (tile unit nx ny nz).
Proof.
  unfold generate_structure, build_structure. intros H.
  bind_inv H. rename a into rq. bind_inv H0. rename a into unit.
  bind_inv H1. rename a into tiled. bind_inv H0. injection H1 as <-.
  destruct (resolve_request_Ok _ _ _ _ _ _ Hs)
    as (props & nx & ny & nz & _ & He & Hst & Hsz & Hsize & _).
  apply base_structure_Ok in Hs0. destruct Hs0 as (family & Hf & Hb).
  rewrite Hsz in Hs1. apply atoms_repeat_Ok in Hs1.
  destruct Hs1 as (nx' & ny' & nz' & Hsize' & Hx & Hy & Hz & ->).
  rewrite Hsize in Hsize'. injection Hsize' as <- <- <-.
  rewrite Hst in Hf. rewrite He in Hb. destruct a.
  exists rq, family, unit, nx, ny, nz. repeat split; auto.
Qed.

(** C1.  Atom count law: a returned record has
    [num_atoms = basis_count family * nx * ny * nz], with four atoms per fcc
    cell and two per bcc or hcp cell, and [positions] and [numbers] both
    have [num_atoms] entries. *)
Theorem atom_count_law element structure_type lattice_constant nx ny nz c_over_a s :
  generate_structure registry element structure_type lattice_constant
    [nx; ny; nz] c_over_a = Ok s ->
  exists family,
    structure_family (lower structure_type) = Some family /\
    Metadata.num_atoms (metadata s) = (basis_count family * nx * ny * nz)%Z /\
    Z.of_nat (List.length (positions s)) = Metadata.num_atoms (metadata s) /\
    Z.of_nat (List.length (numbers s)) = Metadata.num_atoms (metadata s).
Proof.
  intros H. apply generate_structure_Ok in H.
  destruct H as (rq & family & unit & nx' & ny' & nz' & _ & Hf & Hb & Hsz &
                 Hx & Hy & Hz & _ & ->).
  injection Hsz as <- <- <-.
  apply bulk_Ok in Hb.
  destruct Hb as (unit_cell & number & _ & _ & Hnum & Hpos & _ & _).
  exists family. split; [exact Hf|]. simpl.
  rewrite length_map, tile_positions_length, tile_numbers_length, Hnum, Hpos.
  rewrite !length_map. rewrite <- basis_length.
  repeat split; lia.
Qed.
End GeneratorFacts.

(** ** The validator on the geometry of ASE *)

Lemma in_unit_cell_check (s : vec) :
  vec_all (fun x => Rleb 0 x && Rleb x 1) s = true <-> in_unit_cell s.
Proof.
  destruct s as [[x y] z]. unfold vec_all, in_unit_cell.
  rewrite !andb_true_iff, !Rleb_true. tauto.
Qed.

Lemma containment_passes (l : list vec) :
  Forall in_unit_cell l ->
  forallb (vec_all (fun x => Rleb 0 x && Rleb x 1)) l = true.
Proof.
  intros H. apply forallb_forall. intros s Hs. apply in_unit_cell_check.
  rewrite Forall_forall in H. now apply H.
Qed.


(** ** Containment of the tiled atoms *)

Lemma range_In (i n : Z) : In i (range n) <-> (0 <= i < n)%Z.
Proof.
  unfold range. rewrite in_map_iff. split.
  - intros (k & <- & Hk). apply in_seq in Hk. lia.
  - intros H. exists (Z.to_nat i). split; [lia|]. apply in_seq. lia.
Qed.

Lemma tile_positions_In atoms nx ny nz p :
  In p (get_positions (tile atoms nx ny nz)) ->
  exists i j k q,
    (0 <= i < nx)%Z /\ (0 <= j < ny)%Z /\ (0 <= k < nz)%Z /\
    In q (get_positions atoms) /\
    p = vadd q (vec_mat (ivec i j k) (get_cell atoms)).
Proof.
  unfold tile. destruct (get_cell atoms) as [[r0 r1] r2] eqn:E. simpl.
  intros H. apply in_flat_map in H. destruct H as (o & Ho & Hp).
  apply in_flat_map in Ho. destruct Ho as (i & Hi & Ho).
  apply in_flat_map in Ho. destruct Ho as (j & Hj & Ho).
  apply in_map_iff in Ho. destruct Ho as (k & <- & Hk).
  apply in_map_iff in Hp. destruct Hp as (q & <- & Hq).
  apply range_In in Hi, Hj, Hk. exists i, j, k, q. auto.
Qed.

Lemma cramer_denominator (kx ky kz : R) (r0 r1 r2 : vec) :
  det3 (vscale kx r0, vscale ky r1, vscale kz r2) = kx * ky * kz * det3 (r0, r1, r2).
Proof.
  destruct r0 as [[a0 a1] a2], r1 as [[b0 b1] b2], r2 as [[c0 c1] c2].
  unfold det3, vscale. ring.
Qed.

Lemma cramer_numerators (kx ky kz : R) (r0 r1 r2 : vec) (s0 s1 s2 : R) :
  det3 (vec_mat (s0, s1, s2) (r0, r1, r2), vscale ky r1, vscale kz r2)
    = s0 * (ky * kz * det3 (r0, r1, r2)) /\
  det3 (vscale kx r0, vec_mat (s0, s1, s2) (r0, r1, r2), vscale kz r2)
    = s1 * (kx * kz * det3 (r0, r1, r2)) /\
  det3 (vscale kx r0, vscale ky r1, vec_mat (s0, s1, s2) (r0, r1, r2))
    = s2 * (kx * ky * det3 (r0, r1, r2)).
Proof.
  destruct r0 as [[a0 a1] a2], r1 as [[b0 b1] b2], r2 as [[c0 c1] c2].
  unfold det3, vec_mat, vadd, vscale. repeat split; ring.
Qed.

(** A point with coordinates [s] in the unit cell has coordinates
    [s / (nx, ny, nz)] in the replicated cell. *)
Lemma scaled_position_lattice nx ny nz unit_cell s0 s1 s2 :
  det3 unit_cell <> 0 -> IZR nx <> 0 -> IZR ny <> 0 -> IZR nz <> 0 ->
  scaled_position (scale_rows nx ny nz unit_cell) (vec_mat (s0, s1, s2) unit_cell)
    = (s0 / IZR nx, s1 / IZR ny, s2 / IZR nz).
Proof.
  destruct unit_cell as [[r0 r1] r2]. intros Hd Hx Hy Hz.
  unfold scaled_position, scale_rows. cbv beta iota zeta.
  destruct (cramer_numerators (IZR nx) (IZR ny) (IZR nz) r0 r1 r2 s0 s1 s2)
    as (-> & -> & ->).
  rewrite cramer_denominator.
  f_equal; [f_equal|]; field; auto.
Qed.

Lemma wrap_in_unit (fold : bool) (x : R) : 0 <= x <= 1 -> 0 <= wrap fold x <= 1.
Proof.
  intros H. destruct fold; simpl; [|exact H].
  destruct (base_fp (frac_part x)) as [H0 H1]. lra.
Qed.

Lemma quotient_in_unit (x n : R) : 0 < n -> 0 <= x <= n -> 0 <= x / n <= 1.
Proof.
  intros Hn [H0 H1]. pose proof (Rinv_0_lt_compat n Hn) as Hi. unfold Rdiv. split.
  - apply Rmult_le_pos; lra.
  - replace 1 with (n * / n) by (field; lra). apply Rmult_le_compat_r; lra.
Qed.

Lemma offset_in_unit (f : R) (i n : Z) :
  0 <= f <= 1 -> (0 <= i < n)%Z -> 0 <= (f + IZR i) / IZR n <= 1.
Proof.
  intros Hf Hi.
  assert (H0 : 0 <= IZR i) by (apply IZR_le; lia).
  assert (H1 : IZR (i + 1) <= IZR n) by (apply IZR_le; lia).
  assert (Hn : 0 < IZR n) by (apply IZR_lt; lia).
  rewrite plus_IZR in H1. apply quotient_in_unit; lra.
Qed.

Lemma basis_in_unit_cell (family : LatticeFamily) : Forall in_unit_cell (basis family).
Proof.
  destruct family; simpl;
    repeat (apply Forall_cons; [simpl; lra|]); apply Forall_nil.
Qed.

Lemma cell_matrix_regular family a c unit_cell :
  cell_matrix family a c = Some unit_cell ->
  0 < a -> (forall c', c = Some c' -> 0 < c') ->
  det3 unit_cell <> 0.
Proof.
  intros Hcell Ha Hc.
  destruct family, c as [c'|]; simpl in Hcell; try discriminate;
    injection Hcell as <-; unfold det3, vscale.
  1-4: assert (0 < a * a * a) by (repeat apply Rmult_lt_0_compat; exact Ha); lra.
  pose proof (Hc c' eq_refl) as Hc'.
  assert (Hq : 0 < sqrt 3) by (apply sqrt_lt_R0; lra).
  assert (H : 0 < a * (a * (sqrt 3 / 2) * c')).
  { repeat apply Rmult_lt_0_compat; lra. }
  lra.
Qed.

(** Containment invariant: every atom of a tiled unit cell has its
    fractional coordinates, relative to the replicated cell, in [0, 1],
    whether ASE folds them or not. *)
Lemma tile_contained wrap_flag name family a c unit nx ny nz :
  bulk name family a c = Ok unit ->
  0 < a -> (forall c', c = Some c' -> 0 < c') ->
  (0 < nx)%Z -> (0 < ny)%Z -> (0 < nz)%Z ->
  Forall in_unit_cell
    (get_scaled_positions (Geometry := ase_geometry wrap_flag) (tile unit nx ny nz)).
Proof.
  intros Hb Ha Hc Hx Hy Hz. apply bulk_Ok in Hb.
  destruct Hb as (unit_cell & number & Hcell & _ & _ & Hpos & Hucell & Hpbc).
  pose proof (cell_matrix_regular _ _ _ _ Hcell Ha Hc) as Hdet.
  change (Forall in_unit_cell (ase_get_scaled_positions wrap_flag (tile unit nx ny nz))).
  unfold ase_get_scaled_positions. rewrite tile_pbc, Hpbc, tile_cell, Hucell.
  apply Forall_forall. intros s Hs. apply in_map_iff in Hs.
  destruct Hs as (p & <- & Hp).
  apply tile_positions_In in Hp.
  destruct Hp as (i & j & k & q & Hi & Hj & Hk & Hq & ->).
  rewrite Hpos in Hq. apply in_map_iff in Hq. destruct Hq as (f & <- & Hf).
  rewrite Hucell, tile_position_spec.
  pose proof (basis_in_unit_cell family) as Hbasis.
  rewrite Forall_forall in Hbasis. specialize (Hbasis f Hf).
  destruct f as [[f0 f1] f2]. unfold ivec, vadd.
  rewrite scaled_position_lattice; auto.
  2-4: apply Rgt_not_eq, Rlt_gt, IZR_lt; assumption.
  destruct Hbasis as (H0 & H1 & H2). unfold in_unit_cell.
  repeat split; apply wrap_in_unit, offset_in_unit; assumption || lia.
Qed.

Lemma cell_angle_range lj lk vj vk : Rltb 180 (Rabs (cell_angle lj lk vj vk)) = false.
Proof.
  apply Rltb_false. unfold cell_angle.
  destruct (Rltb (/ 10 ^ 16) (lj * lk)).
  - pose proof (acos_bound (dot vj vk / (lj * lk))) as [H0 H1].
    pose proof PI_RGT_0 as Hpi.
    assert (Hd : 0 < 180 / PI) by (apply Rdiv_lt_0_compat; lra).
    rewrite Rabs_pos_eq by nra.
    replace 180 with (180 / PI * PI) at 2 by (field; lra).
    apply Rmult_le_compat_l; lra.
  - rewrite Rabs_pos_eq; lra.
Qed.

Lemma norm_positive (v : vec) : 0 < dot v v -> Rleb (norm v) 0 = false.
Proof. intros H. apply Rleb_false. unfold norm. now apply sqrt_lt_R0. Qed.

Lemma cell_matrix_rows family a c nx ny nz unit_cell :
  cell_matrix family a c = Some unit_cell ->
  0 < a -> (forall c', c = Some c' -> 0 < c') ->
  (0 < nx)%Z -> (0 < ny)%Z -> (0 < nz)%Z ->
  let '(r0, r1, r2) := scale_rows nx ny nz unit_cell in
  0 < dot r0 r0 /\ 0 < dot r1 r1 /\ 0 < dot r2 r2.
Proof.
  intros Hcell Ha Hc Hx Hy Hz.
  apply IZR_lt in Hx, Hy, Hz.
  assert (Hxa : 0 < IZR nx * a) by nra.
  assert (Hya : 0 < IZR ny * a) by nra.
  assert (Hza : 0 < IZR nz * a) by nra.
  destruct family, c as [c'|]; simpl in Hcell; try discriminate;
    injection Hcell as <-; simpl; repeat split; try nra.
  - pose proof (Hc c' eq_refl). assert (0 < IZR nz * c') by nra. nra.
Qed.

Lemma validate_structure_tile wrap_flag name family a c unit nx ny nz :
  bulk name family a c = Ok unit ->
  0 < a -> (forall c', c = Some c' -> 0 < c') ->
  (0 < nx)%Z -> (0 < ny)%Z -> (0 < nz)%Z ->
  validate_structure (G := ase_geometry wrap_flag) (tile unit nx ny nz) = Ok tt.
Proof.
  intros Hb Ha Hc Hx Hy Hz.
  pose proof (tile_contained wrap_flag _ _ _ _ _ nx ny nz Hb Ha Hc Hx Hy Hz) as Hin.
  apply bulk_Ok in Hb.
  destruct Hb as (unit_cell & number & Hcell & _ & _ & _ & Hucell & Hpbc).
  unfold validate_structure. rewrite (containment_passes _ Hin).
  simpl. rewrite tile_cell, Hucell.
  pose proof (cell_matrix_rows _ _ _ nx ny nz _ Hcell Ha Hc Hx Hy Hz) as Hrows.
  destruct (scale_rows nx ny nz unit_cell) as [[r0 r1] r2].
  destruct Hrows as (H0 & H1 & H2).
  unfold ase_cell_to_cellpar. simpl.
  rewrite !norm_positive by assumption. simpl.
  rewrite !cell_angle_range. reflexivity.
Qed.

(** ** Valid requests are served *)

Lemma validate_input_accepts registry element structure_type a nx ny nz c_over_a
    element_props :
  dict_get registry element = Some element_props ->
  str_in (lower structure_type) VALID_STRUCTURES = true ->
  str_in (lower structure_type) (supported_structures element_props) = true ->
  0 < a -> (0 < nx)%Z -> (0 < ny)%Z -> (0 < nz)%Z ->
  (lower structure_type = "hcp" -> exists r, c_over_a = Some r /\ 0 < r) ->
  validate_input registry element structure_type a [nx; ny; nz] c_over_a = Ok tt.
Proof.
  intros Hreg Hvalid Hsup Ha Hx Hy Hz Hhcp.
  unfold validate_input.
  cbn [List.length Nat.eqb negb raise_if bind]. rewrite Hreg, Hvalid, Hsup.
  rewrite (proj2 (Rleb_false a 0)) by exact Ha.
  cbn [existsb negb raise_if bind].
  rewrite !(proj2 (Z.leb_gt _ _)) by assumption.
  cbn [orb raise_if bind].
  destruct (String.eqb (lower structure_type) "hcp") eqn:E; [|reflexivity].
  apply String.eqb_eq in E. destruct (Hhcp E) as (r & -> & Hr).
  now rewrite (proj2 (Rleb_false r 0)).
Qed.

Lemma structure_family_valid structure_type family :
  structure_family structure_type = Some family ->
  str_in structure_type VALID_STRUCTURES = true.
Proof.
  unfold structure_family, str_in, VALID_STRUCTURES. simpl.
  destruct (String.eqb structure_type "fcc"); [reflexivity|].
  destruct (String.eqb structure_type "bcc"); [reflexivity|].
  destruct (String.eqb structure_type "hcp"); [reflexivity|discriminate].
Qed.

Lemma structure_family_hcp structure_type family :
  structure_family structure_type = Some family ->
  String.eqb structure_type "hcp" = match family with HCP => true | _ => false end.
Proof.
  unfold structure_family.
  destruct (String.eqb structure_type "fcc") eqn:Ef.
  - apply String.eqb_eq in Ef. subst. intros [= <-]. reflexivity.
  - destruct (String.eqb structure_type "bcc") eqn:Eb.
    + apply String.eqb_eq in Eb. subst. intros [= <-]. reflexivity.
    + destruct (String.eqb structure_type "hcp"); intros [= <-]. reflexivity.
Qed.

(** On the geometry of ASE, folding or not, every well-formed request is
    served: a
    registered element that ASE knows, a structure type the element
    supports, a positive lattice constant (given or defaulted), three
    positive replication counts and, for hcp, a positive c/a ratio (given or
    defaulted). *)
Theorem generate_structure_succeeds wrap_flag registry element structure_type
    lattice_constant nx ny nz c_over_a element_props family a number :
  dict_get registry element = Some element_props ->
  structure_family (lower structure_type) = Some family ->
  str_in (lower structure_type) (supported_structures element_props) = true ->
  match lattice_constant with
  | Some a' => Some a'
  | None => dict_get (lattice_constants element_props) (lower structure_type)
  end = Some a ->
  0 < a -> (0 < nx)%Z -> (0 < ny)%Z -> (0 < nz)%Z ->
  (family = HCP ->
   exists r, match c_over_a with
             | Some r' => Some r'
             | None => get_c_over_a element_props
             end = Some r /\ 0 < r) ->
  atomic_numbers element = Some number ->
  exists s,
    generate_structure (G := ase_geometry wrap_flag) registry element structure_type
      lattice_constant [nx; ny; nz] c_over_a = Ok s.
Proof.
  intros Hreg Hfam Hsup Hlc Ha Hx Hy Hz Hhcp Hnum.
  pose proof (structure_family_valid _ _ Hfam) as Hvalid.
  pose proof (structure_family_hcp _ _ Hfam) as Hh.
  unfold generate_structure, resolve_request, getitem. rewrite Hreg. simpl.
  assert (Hlc' :
    match lattice_constant with
    | Some a0 => Ok a0
    | None =>
        match dict_get (lattice_constants element_props) (lower structure_type) with
        | Some a0 => Ok a0
        | None => Raise (ValueError
            "No default lattice constant for {element} {structure_type}. Please provide one.")
        end
    end = Ok a).
  { destruct lattice_constant as [a'|]; [congruence|]. now rewrite Hlc. }
  rewrite Hlc'. simpl.
  set (coa := if (String.eqb (lower structure_type) "hcp" && is_none c_over_a)%bool
              then match hcp_parameters element_props with
                   | Some p => dict_get p "c_over_a"
                   | None => c_over_a
                   end
              else c_over_a).
  assert (Hcoa : family = HCP -> exists r, coa = Some r /\ 0 < r).
  { intros ->. destruct (Hhcp eq_refl) as (r & Hr & Hrpos). exists r.
    split; [|exact Hrpos]. subst coa. rewrite Hh.
    destruct c_over_a as [r'|]; simpl; [exact Hr|].
    unfold get_c_over_a in Hr.
    destruct (hcp_parameters element_props); [exact Hr | discriminate]. }
  rewrite validate_input_accepts with (element_props := element_props); auto.
  2,3: now rewrite lower_idempotent.
  2: { rewrite lower_idempotent. intros E. apply Hcoa.
       rewrite E in Hfam. now injection Hfam as <-. }
  simpl. unfold build_structure, base_structure. simpl. rewrite Hh.
  assert (Hbulk : exists unit,
    bulk element family a (c_parameter family a coa) = Ok unit).
  { unfold bulk. rewrite Hnum.
    destruct family; simpl; eauto.
    destruct (Hcoa eq_refl) as (r & -> & _). simpl. eauto. }
  destruct Hbulk as (unit & Hbulk).
  assert (Hbase :
    (if match family with HCP => true | _ => false end
     then match coa with
          | Some c_over_a0 => bulk element HCP a (Some (a * c_over_a0))
          | None => Raise (ValueError "c/a ratio is required for HCP structures")
          end
     else if String.eqb (lower structure_type) "fcc"
          then bulk element FCC a None
          else if String.eqb (lower structure_type) "bcc"
               then bulk element BCC a None
               else Raise (ValueError "Unknown structure: {structure_type}"))
    = Ok unit).
  { unfold structure_family in Hfam.
    destruct (String.eqb (lower structure_type) "fcc").
    - injection Hfam as <-. exact Hbulk.
    - destruct (String.eqb (lower structure_type) "bcc").
      + injection Hfam as <-. exact Hbulk.
      + destruct (String.eqb (lower structure_type) "hcp"); [|discriminate].
        injection Hfam as <-. destruct (Hcoa eq_refl) as (r & Hr & _).
        rewrite Hr in *. exact Hbulk. }
  rewrite Hbase. simpl.
  rewrite !(proj2 (Z.ltb_lt _ _)) by assumption. simpl.
  rewrite (validate_structure_tile wrap_flag element family a
             (c_parameter family a coa)); auto.
  - simpl. eauto.
  - intros c' Hc'. destruct family; simpl in Hc'; try discriminate.
    destruct (Hcoa eq_refl) as (r & Hr & Hrpos). rewrite Hr in Hc'. simpl in Hc'.
    injection Hc' as <-. now apply Rmult_lt_0_compat.
Qed.

(** ** Laws of the returned record *)

Section RecordLaws.
Variable registry : dict ElementProperties.
Context {G : Geometry}.

(** C4.  Cell scaling law: rows 0, 1 and 2 of the returned cell are the
    rows a, b and c of the unit cell that [bulk] built, scaled by [nx], [ny]
    and [nz]. *)
Theorem cell_scaling_law element structure_type lattice_constant nx ny nz c_over_a s :
  generate_structure registry element structure_type lattice_constant
    [nx; ny; nz] c_over_a = Ok s ->
  exists family unit a b c,
    structure_family (lower structure_type) = Some family /\
    bulk element family (Metadata.lattice_constant (metadata s))
      (c_parameter family (Metadata.lattice_constant (metadata s))
         (Metadata.c_over_a (metadata s))) = Ok unit /\
    get_cell unit = (a, b, c) /\
    row 0 (cell s) = vec_tolist (vscale (IZR nx) a) /\
    row 1 (cell s) = vec_tolist (vscale (IZR ny) b) /\
    row 2 (cell s) = vec_tolist (vscale (IZR nz) c).
Proof.
  intros H. apply generate_structure_Ok in H.
  destruct H as (rq & family & unit & nx' & ny' & nz' & Hrq & Hf & Hb & Hsz &
                 _ & _ & _ & _ & ->).
  injection Hsz as <- <- <-.
  apply resolve_request_Ok in Hrq.
  destruct Hrq as (_ & _ & _ & _ & _ & _ & Hst & _).
  destruct (get_cell unit) as [[a b] c] eqn:Hcell.
  exists family, unit, a, b, c. simpl. rewrite Hst, tile_cell, Hcell.
  rewrite (structure_family_hcp _ _ Hf).
  repeat split; auto.
  destruct family; exact Hb.
Qed.

(** Every entry of [numbers] is the atomic number ASE has for the symbol. *)
Lemma numbers_are_ase_numbers element structure_type lattice_constant size c_over_a s :
  generate_structure registry element structure_type lattice_constant size c_over_a
    = Ok s ->
  exists number,
    atomic_numbers element = Some number /\ Forall (eq number) (numbers s).
Proof.
  intros H. apply generate_structure_Ok in H.
  destruct H as (rq & family & unit & nx & ny & nz & _ & _ & Hb & _ &
                 _ & _ & _ & _ & ->).
  apply bulk_Ok in Hb. destruct Hb as (unit_cell & number & _ & Hnum & Hnums & _).
  exists number. split; [exact Hnum|]. simpl. apply tile_numbers_const.
  rewrite Hnums. apply Forall_forall. intros n Hn. apply in_map_iff in Hn.
  now destruct Hn as (_ & -> & _).
Qed.

Lemma build_structure_cubic rq c_over_a' :
  String.eqb (req_structure_type rq) "hcp" = false ->
  build_structure
    {| req_element := req_element rq;
       req_structure_type := req_structure_type rq;
       req_lattice_constant := req_lattice_constant rq;
       req_size := req_size rq;
       req_c_over_a := c_over_a' |} = build_structure rq.
Proof.
  intros E. unfold build_structure, base_structure, structure_data. simpl.
  rewrite E. reflexivity.
Qed.

Lemma validate_input_cubic element structure_type a size c_over_a :
  String.eqb (lower structure_type) "hcp" = false ->
  validate_input registry element structure_type a size c_over_a =
  validate_input registry element structure_type a size None.
Proof.
  intros E. unfold validate_input. rewrite E. reflexivity.
Qed.

(** C10.  For fcc and bcc the [c_over_a] entry of the metadata is [None]
    whatever the caller supplied, and the supplied value is never looked
    at: the call returns, or raises, exactly as it does without it. *)
Theorem cubic_ignores_c_over_a element structure_type lattice_constant size c_over_a :
  lower structure_type = "fcc" \/ lower structure_type = "bcc" ->
  (forall s,
     generate_structure registry element structure_type lattice_constant size c_over_a
       = Ok s ->
     Metadata.c_over_a (metadata s) = None) /\
  generate_structure registry element structure_type lattice_constant size c_over_a =
  generate_structure registry element structure_type lattice_constant size None.
Proof.
  intros Hst.
  assert (E : String.eqb (lower structure_type) "hcp" = false)
    by (destruct Hst as [-> | ->]; reflexivity).
  split.
  - intros s H. apply generate_structure_Ok in H.
    destruct H as (rq & family & unit & nx & ny & nz & Hrq & _ & _ & _ &
                   _ & _ & _ & _ & ->).
    apply resolve_request_Ok in Hrq.
    destruct Hrq as (_ & _ & _ & _ & _ & _ & Hrst & _).
    simpl. now rewrite Hrst, E.
  - unfold generate_structure, resolve_request.
    destruct (getitem registry element) as [element_props|e]; [|reflexivity].
    simpl.
    destruct (match lattice_constant with
              | Some a => Ok a
              | None => _
              end) as [a|e]; [|reflexivity].
    simpl. rewrite E. simpl.
    rewrite (validate_input_cubic element (lower structure_type) a size c_over_a)
      by now rewrite lower_idempotent.
    destruct (validate_input registry element (lower structure_type) a size None)
      as [u|e]; [|reflexivity].
    simpl.
    exact (build_structure_cubic
             {| req_element := element;
                req_structure_type := lower structure_type;
                req_lattice_constant := a;
                req_size := size;
                req_c_over_a := None |} c_over_a E).
Qed.
End RecordLaws.

(** ** The hexagonal cell *)

Lemma list_norm_axis0 (x : R) : 0 <= x -> list_norm [x; 0; 0] = x.
Proof.
  intros Hx. unfold list_norm. simpl.
  replace (x * x + (0 * 0 + (0 * 0 + 0))) with (x * x) by ring.
  now apply sqrt_square.
Qed.

Lemma list_norm_axis2 (x : R) : 0 <= x -> list_norm [0; 0; x] = x.
Proof.
  intros Hx. unfold list_norm. simpl.
  replace (0 * 0 + (0 * 0 + (x * x + 0))) with (x * x) by ring.
  now apply sqrt_square.
Qed.

(** The axis ratio of a returned hcp cell: the resolved c/a ratio times
    [nz / nx]. *)
Lemma hcp_axis_ratio registry (G : Geometry) element structure_type lattice_constant
    nx ny nz c_over_a s :
  generate_structure registry element structure_type lattice_constant
    [nx; ny; nz] c_over_a = Ok s ->
  lower structure_type = "hcp" ->
  exists r,
    Metadata.c_over_a (metadata s) = Some r /\
    (c_over_a = Some r \/
     c_over_a = None /\
     exists element_props,
       dict_get registry element = Some element_props /\
       get_c_over_a element_props = Some r) /\
    list_norm (row 2 (cell s)) / list_norm (row 0 (cell s)) = r * IZR nz / IZR nx.
Proof.
  intros H Hst. apply generate_structure_Ok in H.
  destruct H as (rq & family & unit & nx' & ny' & nz' & Hrq & Hf & Hb & Hsz &
                 Hx & Hy & Hz & _ & ->).
  injection Hsz as <- <- <-.
  apply resolve_request_Ok in Hrq.
  destruct Hrq as (props & _ & _ & _ & Hreg & _ & Hrst & _ & _ & _ & _ & _ & Ha &
                   _ & _ & _ & Hcoa & Hpos).
  rewrite Hst in Hf, Hcoa, Hrst. simpl in Hf, Hcoa. injection Hf as <-.
  apply bulk_Ok in Hb. destruct Hb as (unit_cell & number & Hcell & _ & _ & _ & Hucell & _).
  destruct (req_c_over_a rq) as [r|] eqn:Hr; simpl in Hcell; [|discriminate].
  injection Hcell as <-.
  pose proof (Hpos Hst r eq_refl) as Hrpos.
  exists r. simpl. rewrite Hrst, Hr. simpl. split; [reflexivity|]. split.
  - destruct c_over_a as [r'|]; [left; congruence|].
    right. split; [reflexivity|]. exists props. split; [exact Hreg | congruence].
  - rewrite tile_cell, Hucell. simpl. unfold row. simpl.
    apply IZR_lt in Hx, Hz.
    set (a := req_lattice_constant rq) in *.
    assert (Hxa : 0 < IZR nx * a) by (apply Rmult_lt_0_compat; assumption).
    assert (Har : 0 < a * r) by (apply Rmult_lt_0_compat; assumption).
    assert (Hzc : 0 < IZR nz * (a * r)) by (apply Rmult_lt_0_compat; assumption).
    replace (IZR nx * (a * 1)) with (IZR nx * a) by ring.
    replace (IZR nx * (a * 0)) with 0 by ring.
    replace (IZR nz * 0) with 0 by ring.
    rewrite list_norm_axis0, list_norm_axis2 by lra.
    field. split; lra.
Qed.

(** *** Propagation of relative errors *)

Lemma near_exact q : 0 < q -> near 0 q q.
Proof. intros H. unfold near. split; [exact H | lra]. Qed.

Lemma near_weaken e e' x q : e <= e' -> near e x q -> near e' x q.
Proof. unfold near. intros He (Hq & H1 & H2). split; [exact Hq|]. nra. Qed.

Lemma near_fl fl eta omega e x q :
  accurate fl eta omega -> normal eta omega q -> 0 <= e <= 1 / 2 ->
  near e x q -> near (e + 2 * unit_roundoff) (fl x) q.
Proof.
  intros [_ Hfl] [Hlo Hhi] He (Hq & H1 & H2).
  assert (Hu : 0 < unit_roundoff < 1) by (unfold unit_roundoff; lra).
  set (u := unit_roundoff) in *.
  assert (Hx : 0 < x) by nra.
  assert (Hr : eta <= Rabs x <= omega) by (rewrite Rabs_pos_eq by lra; nra).
  specialize (Hfl x Hr). rewrite (Rabs_pos_eq x) in Hfl by lra.
  assert (Hux : 0 <= u * x) by (apply Rmult_le_pos; lra).
  assert (Hb : - (u * x) <= fl x - x <= u * x).
  { revert Hfl. unfold Rabs. destruct (Rcase_abs (fl x - x)); intros; lra. }
  split; [exact Hq|].
  assert (0 <= q * e * u) by (apply Rmult_le_pos; [apply Rmult_le_pos|]; lra).
  assert (q * e * u <= q * u) by nra.
  split; nra.
Qed.

Lemma near_scale k e x q : 0 < k -> near e x q -> near e (k * x) (k * q).
Proof.
  unfold near. intros Hk (Hq & H1 & H2). split; [now apply Rmult_lt_0_compat|].
  split; nra.
Qed.

Lemma near_mul e1 e2 x y q1 q2 :
  0 <= e1 <= 1 -> 0 <= e2 <= 1 ->
  near e1 x q1 -> near e2 y q2 -> near (2 * e1 + e2) (x * y) (q1 * q2).
Proof.
  unfold near. intros He1 He2 (Hq1 & H1 & H2) (Hq2 & H3 & H4).
  split; [now apply Rmult_lt_0_compat|].
  assert (Hq : 0 < q1 * q2) by now apply Rmult_lt_0_compat.
  assert (Hlo : q1 * (1 - e1) * (q2 * (1 - e2)) <= x * y).
  { apply Rmult_le_compat; nra. }
  assert (Hhi : x * y <= q1 * (1 + e1) * (q2 * (1 + e2))).
  { apply Rmult_le_compat; nra. }
  assert (0 <= e1 * e2 <= e1) by nra.
  split.
  - apply Rle_trans with (2 := Hlo).
    replace (q1 * (1 - e1) * (q2 * (1 - e2)))
      with (q1 * q2 * (1 - e1 - e2 + e1 * e2)) by ring.
    apply Rmult_le_compat_l; lra.
  - apply Rle_trans with (1 := Hhi).
    replace (q1 * (1 + e1) * (q2 * (1 + e2)))
      with (q1 * q2 * (1 + e1 + e2 + e1 * e2)) by ring.
    apply Rmult_le_compat_l; lra.
Qed.

Lemma near_sqrt e x q : 0 <= e <= 1 -> near e x q -> near e (sqrt x) (sqrt q).
Proof.
  unfold near. intros He (Hq & H1 & H2).
  assert (Hs : 0 < sqrt q) by now apply sqrt_lt_R0.
  assert (Hsq : sqrt q * sqrt q = q) by (apply sqrt_sqrt; lra).
  split; [exact Hs|]. split.
  - rewrite <- (sqrt_square (sqrt q * (1 - e))) by nra.
    apply sqrt_le_1_alt.
    replace (sqrt q * (1 - e) * (sqrt q * (1 - e)))
      with (sqrt q * sqrt q * ((1 - e) * (1 - e))) by ring.
    rewrite Hsq. apply Rle_trans with (2 := H1).
    apply Rmult_le_compat_l; nra.
  - rewrite <- (sqrt_square (sqrt q * (1 + e))) by nra.
    apply sqrt_le_1_alt.
    replace (sqrt q * (1 + e) * (sqrt q * (1 + e)))
      with (sqrt q * sqrt q * ((1 + e) * (1 + e))) by ring.
    rewrite Hsq. apply Rle_trans with (1 := H2).
    apply Rmult_le_compat_l; nra.
Qed.

Lemma near_div e1 e2 x y q1 q2 :
  0 <= e1 <= 1 / 4 -> 0 <= e2 <= 1 / 4 ->
  near e1 x q1 -> near e2 y q2 -> near (2 * e1 + 2 * e2) (x / y) (q1 / q2).
Proof.
  unfold near. intros He1 He2 (Hq1 & H1 & H2) (Hq2 & H3 & H4).
  assert (Hy : 0 < y) by nra.
  assert (Hq : 0 < q1 / q2) by now apply Rdiv_lt_0_compat.
  split; [exact Hq|].
  assert (E : q1 = q1 / q2 * q2) by (field; lra).
  split.
  - apply Rmult_le_reg_r with y; [exact Hy|].
    replace (x / y * y) with x by (field; lra).
    apply Rle_trans with (2 := H1).
    apply Rle_trans with (q1 / q2 * (1 - (2 * e1 + 2 * e2)) * (q2 * (1 + e2))).
    + apply Rmult_le_compat_l; [|exact H4]. apply Rmult_le_pos; lra.
    + replace (q1 * (1 - e1)) with (q1 / q2 * q2 * (1 - e1)) by (rewrite <- E; ring).
      replace (q1 / q2 * (1 - (2 * e1 + 2 * e2)) * (q2 * (1 + e2)))
        with (q1 / q2 * q2 * ((1 - (2 * e1 + 2 * e2)) * (1 + e2))) by ring.
      apply Rmult_le_compat_l; [rewrite <- E; lra | nra].
  - apply Rmult_le_reg_r with y; [exact Hy|].
    replace (x / y * y) with x by (field; lra).
    apply Rle_trans with (1 := H2).
    apply Rle_trans with (q1 / q2 * (1 + (2 * e1 + 2 * e2)) * (q2 * (1 - e2))).
    + replace (q1 * (1 + e1)) with (q1 / q2 * q2 * (1 + e1)) by (rewrite <- E; ring).
      replace (q1 / q2 * (1 + (2 * e1 + 2 * e2)) * (q2 * (1 - e2)))
        with (q1 / q2 * q2 * ((1 + (2 * e1 + 2 * e2)) * (1 - e2))) by ring.
      apply Rmult_le_compat_l; [rewrite <- E; lra | nra].
    + apply Rmult_le_compat_l; [|exact H3]. apply Rmult_le_pos; lra.
Qed.

Lemma near_within e x q : e <= 1 / 10000000000 -> near e x q -> within_1e10 x q.
Proof.
  unfold near, within_1e10. intros He (Hq & H1 & H2).
  rewrite (Rabs_pos_eq q) by lra. apply Rabs_le. split; nra.
Qed.

Ltac roundoff := unfold unit_roundoff; lra.

Ltac rounded Hacc N H :=
  eapply near_weaken; [| eapply (near_fl _ _ _ _ _ _ Hacc N); [| exact H]]; roundoff.

Ltac multiplied H1 H2 :=
  eapply near_weaken; [| eapply near_mul; [| | exact H1 | exact H2]]; roundoff.

(** The rounded norm of a rounded row [(n * a, 0, 0)] or [(0, 0, n * a)]:
    from the rounded product to the rounded square root. *)
Lemma rounded_axis_norm fl eta omega x q y :
  accurate fl eta omega -> normal eta omega q -> normal eta omega (q * q) ->
  near (8 * unit_roundoff) x q ->
  (y = fl (fl (x * x)) \/ y = fl (fl (fl (fl (x * x))))) ->
  near (34 * unit_roundoff) (fl (sqrt y)) q.
Proof.
  intros Hacc N N2 Hx Hy.
  assert (Hq : 0 < q) by apply Hx.
  assert (H1 : near (24 * unit_roundoff) (x * x) (q * q)) by multiplied Hx Hx.
  assert (H2 : near (26 * unit_roundoff) (fl (x * x)) (q * q)) by rounded Hacc N2 H1.
  assert (H3 : near (28 * unit_roundoff) (fl (fl (x * x))) (q * q))
    by rounded Hacc N2 H2.
  assert (H4 : near (30 * unit_roundoff) (fl (fl (fl (x * x)))) (q * q))
    by rounded Hacc N2 H3.
  assert (H5 : near (32 * unit_roundoff) (fl (fl (fl (fl (x * x))))) (q * q))
    by rounded Hacc N2 H4.
  assert (H6 : near (32 * unit_roundoff) y (q * q)).
  { destruct Hy as [-> | ->]; [|exact H5].
    eapply near_weaken; [|exact H3]. roundoff. }
  assert (H7 : near (32 * unit_roundoff) (sqrt y) q).
  { pose proof (near_sqrt (32 * unit_roundoff) _ _ ltac:(roundoff) H6) as H7.
    now rewrite sqrt_square in H7 by lra. }
  rounded Hacc N H7.
Qed.

(** The rounded axis ratio of the rounded hcp cell is [r * nz / nx] up to
    138 unit roundoffs. *)
Lemma rounded_ratio_near fl eta omega a r nx ny nz :
  accurate fl eta omega -> 0 < a -> 0 < r -> (0 < nx)%Z -> (0 < nz)%Z ->
  in_range eta omega a r nx nz ->
  near (138 * unit_roundoff)
       (rounded_axis_ratio fl (rounded_hcp_cell fl a r nx ny nz))
       (r * IZR nz / IZR nx).
Proof.
  intros Hacc Ha Hr Hx Hz (Na & Nr & Nx & Nz & Nar & Nxa & Nxa2 & Nzc & Nzc2 & Nq).
  pose proof Hacc as [Hfl0 _].
  apply IZR_lt in Hx, Hz.
  unfold rounded_axis_ratio, rounded_hcp_cell, rounded_scale_rows, rounded_hcp_matrix,
    rounded_c, rounded_norm, fvscale, row, fdiv, fsqrt, fadd, fmul.
  cbn [mat_tolist vec_tolist nth fold_right].
  repeat (rewrite ?Rmult_0_r, ?Rmult_1_r, ?Hfl0, ?Rplus_0_r, ?Rplus_0_l).
  assert (Har : 0 < a * r) by now apply Rmult_lt_0_compat.
  assert (Ex : near 0 (IZR nx) (IZR nx)) by now apply near_exact.
  assert (Ez : near 0 (IZR nz) (IZR nz)) by now apply near_exact.
  assert (Ea : near 0 a a) by now apply near_exact.
  assert (Ec : near 0 (a * r) (a * r)) by now apply near_exact.
  assert (Fx : near (2 * unit_roundoff) (fl (IZR nx)) (IZR nx)) by rounded Hacc Nx Ex.
  assert (Fz : near (2 * unit_roundoff) (fl (IZR nz)) (IZR nz)) by rounded Hacc Nz Ez.
  assert (Fa : near (2 * unit_roundoff) (fl a) a) by rounded Hacc Na Ea.
  assert (Fc : near (2 * unit_roundoff) (fl (a * r)) (a * r)) by rounded Hacc Nar Ec.
  assert (Px : near (6 * unit_roundoff) (fl (IZR nx) * fl a) (IZR nx * a))
    by multiplied Fx Fa.
  assert (Pz : near (6 * unit_roundoff) (fl (IZR nz) * fl (a * r)) (IZR nz * (a * r)))
    by multiplied Fz Fc.
  assert (X : near (8 * unit_roundoff) (fl (fl (IZR nx) * fl a)) (IZR nx * a))
    by rounded Hacc Nxa Px.
  assert (Z : near (8 * unit_roundoff) (fl (fl (IZR nz) * fl (a * r)))
                (IZR nz * (a * r)))
    by rounded Hacc Nzc Pz.
  set (x := fl (fl (IZR nx) * fl a)) in *.
  set (z := fl (fl (IZR nz) * fl (a * r))) in *.
  assert (N0 : near (34 * unit_roundoff) (fl (sqrt (fl (fl (x * x))))) (IZR nx * a)).
  { apply (rounded_axis_norm fl eta omega x _ _ Hacc Nxa Nxa2 X). now left. }
  assert (N2 : near (34 * unit_roundoff) (fl (sqrt (fl (fl (fl (fl (z * z)))))))
                 (IZR nz * (a * r))).
  { apply (rounded_axis_norm fl eta omega z _ _ Hacc Nzc Nzc2 Z). now right. }
  assert (Q : near (136 * unit_roundoff)
                (fl (sqrt (fl (fl (fl (fl (z * z)))))) / fl (sqrt (fl (fl (x * x)))))
                (IZR nz * (a * r) / (IZR nx * a))).
  { eapply near_weaken; [| eapply near_div; [| | exact N2 | exact N0]]; roundoff. }
  replace (IZR nz * (a * r) / (IZR nx * a)) with (r * IZR nz / IZR nx) in Q
    by (field; lra).
  rounded Hacc Nq Q.
Qed.

(** A returned hcp record: where its lattice constant and ratio come from,
    and its cell, which is the rounded cell at the exact operations. *)
Lemma hcp_request registry (G : Geometry) element structure_type lattice_constant
    nx ny nz c_over_a s :
  generate_structure registry element structure_type lattice_constant
    [nx; ny; nz] c_over_a = Ok s ->
  lower structure_type = "hcp" ->
  exists element_props r,
    dict_get registry element = Some element_props /\
    resolved_lattice_constant element_props "hcp" lattice_constant
      = Some (Metadata.lattice_constant (metadata s)) /\
    resolved_c_over_a element_props "hcp" c_over_a = Some r /\
    Metadata.c_over_a (metadata s) = Some r /\
    0 < Metadata.lattice_constant (metadata s) /\ 0 < r /\
    (0 < nx)%Z /\ (0 < nz)%Z /\
    cell s = rounded_hcp_cell (fun x => x) (Metadata.lattice_constant (metadata s)) r
               nx ny nz.
Proof.
  intros H Hst. apply generate_structure_Ok in H.
  destruct H as (rq & family & unit & nx' & ny' & nz' & Hrq & Hf & Hb & Hsz &
                 Hx & Hy & Hz & _ & ->).
  injection Hsz as <- <- <-.
  apply resolve_request_Ok in Hrq.
  destruct Hrq as (props & _ & _ & _ & Hreg & _ & Hrst & _ & _ & _ & _ & _ & Ha &
                   Hlc & _ & _ & Hcoa & Hpos).
  rewrite Hst in Hf, Hcoa, Hrst, Hlc. simpl in Hf, Hcoa. injection Hf as <-.
  apply bulk_Ok in Hb. destruct Hb as (unit_cell & number & Hcell & _ & _ & _ & Hucell & _).
  destruct (req_c_over_a rq) as [r|] eqn:Hr; simpl in Hcell; [|discriminate].
  injection Hcell as <-.
  exists props, r. simpl. rewrite Hrst, Hr. simpl.
  split; [exact Hreg|]. split.
  { unfold resolved_lattice_constant. destruct Hlc as [-> | [-> Hd]]; [reflexivity | exact Hd]. }
  split.
  { unfold resolved_c_over_a. simpl. now rewrite Hcoa. }
  split; [reflexivity|]. split; [exact Ha|]. split; [exact (Hpos Hst r eq_refl)|].
  split; [exact Hx|]. split; [exact Hz|].
  rewrite tile_cell, Hucell. reflexivity.
Qed.

Lemma inflate_accurate eta omega : accurate inflate eta omega.
Proof.
  unfold accurate, inflate, unit_roundoff. split; [ring|].
  intros x _. replace (x * (1 + 1 / 10000000000000000) - x)
    with (1 / 10000000000000000 * x) by field.
  rewrite Rabs_mult, (Rabs_pos_eq (1 / 10000000000000000)) by lra.
  pose proof (Rabs_pos x). lra.
Qed.

(** C7.  c/a round trip.  The cell of a returned hcp record with resolved
    ratio [r] (the caller's, or the default of the registry) and lattice
    constant [a] is the hcp cell of [a] and [a * r] scaled by the counts.
    Computed with a rounding after every operation that is accurate between
    [eta] and [omega], and with the quantities the computation goes through
    in that range, the norm of row 2 over the norm of row 0 is within
    [1e-10] of [r * nz / nx]: of [r] itself when [nx = nz]. *)
Theorem c_over_a_round_trip registry (G : Geometry) element structure_type
    lattice_constant nx ny nz c_over_a s (fl : R -> R) (eta omega : R) :
  generate_structure registry element structure_type lattice_constant
    [nx; ny; nz] c_over_a = Ok s ->
  lower structure_type = "hcp" ->
  accurate fl eta omega ->
  exists element_props r,
    dict_get registry element = Some element_props /\
    resolved_c_over_a element_props "hcp" c_over_a = Some r /\
    Metadata.c_over_a (metadata s) = Some r /\
    cell s = rounded_hcp_cell (fun x => x) (Metadata.lattice_constant (metadata s)) r
               nx ny nz /\
    (in_range eta omega (Metadata.lattice_constant (metadata s)) r nx nz ->
     within_1e10
       (rounded_axis_ratio fl
          (rounded_hcp_cell fl (Metadata.lattice_constant (metadata s)) r nx ny nz))
       (r * IZR nz / IZR nx) /\
     (nx = nz ->
      within_1e10
        (rounded_axis_ratio fl
           (rounded_hcp_cell fl (Metadata.lattice_constant (metadata s)) r nx ny nz))
        r)).
Proof.
  intros H Hst Hacc.
  destruct (hcp_request _ _ _ _ _ _ _ _ _ _ H Hst)
    as (props & r & Hreg & _ & Hsrc & Hmeta & Ha & Hr & Hx & Hz & Hcell).
  exists props, r. split; [exact Hreg|]. split; [exact Hsrc|]. split; [exact Hmeta|].
  split; [exact Hcell|]. intros Hrange.
  pose proof (rounded_ratio_near fl eta omega _ r nx ny nz Hacc Ha Hr Hx Hz Hrange)
    as Hnear.
  apply near_within in Hnear; [|roundoff].
  split; [exact Hnear|]. intros E. rewrite <- E in Hnear at 2.
  apply IZR_lt in Hx.
  now replace (r * IZR nx / IZR nx) with r in Hnear by (field; lra).
Qed.

(** ** The element registry *)

(** The registry and ASE agree on the atomic number of every registered
    element. *)
Lemma registry_atomic_numbers element element_props :
  dict_get ELEMENTS element = Some element_props ->
  atomic_numbers element = Some (atomic_number element_props).
Proof.
  unfold ELEMENTS. simpl.
  repeat match goal with
  | |- context [String.eqb element ?k] =>
      destruct (String.eqb element k) eqn:?E;
      [ apply String.eqb_eq in E; subst element; intros [= <-]; reflexivity | clear E ]
  end.
  discriminate.
Qed.

(** C9.  Species homogeneity: every entry of [numbers] is the atomic number
    that the registry [ELEMENTS] gives for the requested element. *)
Theorem species_homogeneity (G : Geometry) element structure_type lattice_constant
    size c_over_a s :
  generate_structure ELEMENTS element structure_type lattice_constant size c_over_a
    = Ok s ->
  exists element_props,
    dict_get ELEMENTS element = Some element_props /\
    Forall (eq (atomic_number element_props)) (numbers s).
Proof.
  intros H.
  destruct (numbers_are_ase_numbers _ _ _ _ _ _ _ H) as (number & Hnum & Hall).
  apply generate_structure_Ok in H.
  destruct H as (rq & _ & _ & _ & _ & _ & Hrq & _).
  apply resolve_request_Ok in Hrq. destruct Hrq as (props & _ & _ & _ & Hreg & _).
  exists props. split; [exact Hreg|].
  apply registry_atomic_numbers in Hreg. rewrite Hnum in Hreg.
  injection Hreg as <-. exact Hall.
Qed.

(** ** Requests that are refused *)

Section Refusals.
Variable registry : dict ElementProperties.
Context {G : Geometry}.

(** C5.  An hcp request without a c/a ratio, for an element whose registry
    entry has no c/a default, raises: no structure is returned. *)
Theorem hcp_without_ratio_fails element structure_type lattice_constant size :
  lower structure_type = "hcp" ->
  (forall element_props,
     dict_get registry element = Some element_props ->
     get_c_over_a element_props = None) ->
  exists e,
    generate_structure registry element structure_type lattice_constant size None
      = Raise e.
Proof.
  intros Hst Hnone.
  destruct (generate_structure registry element structure_type lattice_constant
              size None) as [s|e] eqn:H; [|eauto].
  exfalso. unfold generate_structure in H. bind_inv H. rename a into rq.
  unfold build_structure in H0. bind_inv H0. clear H1.
  apply resolve_request_Ok in Hs.
  destruct Hs as (props & _ & _ & _ & Hreg & _ & Hrst & _ & _ & _ & _ & _ & _ &
                  _ & _ & _ & Hcoa & _).
  rewrite Hst in Hcoa. simpl in Hcoa. rewrite (Hnone _ Hreg) in Hcoa.
  unfold base_structure in Hs0. rewrite Hrst, Hst, Hcoa in Hs0.
  simpl in Hs0. discriminate.
Qed.

Lemma existsb_nonpositive (size : list Z) :
  Exists (fun n => (n <= 0)%Z) size ->
  existsb (fun s => (s <=? 0)%Z) size = true.
Proof.
  intros H. apply existsb_exists. apply Exists_exists in H.
  destruct H as (n & Hin & Hn). exists n. split; [exact Hin|]. now apply Z.leb_le.
Qed.

(** C6.  A replication tuple with a component [<= 0] is refused while the
    request is resolved and validated, before [bulk] is reached, so no
    structure is built; an otherwise acceptable request is refused by
    [validate_input] with the "Invalid supercell size" [ValueError]. *)
Theorem nonpositive_replication_refused element structure_type lattice_constant
    size c_over_a :
  Exists (fun n => (n <= 0)%Z) size ->
  (exists e,
     resolve_request registry element structure_type lattice_constant size c_over_a
       = Raise e /\
     generate_structure registry element structure_type lattice_constant size c_over_a
       = Raise e) /\
  (forall element_props a,
     dict_get registry element = Some element_props ->
     match lattice_constant with
     | Some a' => Some a'
     | None => dict_get (lattice_constants element_props) (lower structure_type)
     end = Some a ->
     List.length size = 3%nat ->
     str_in (lower structure_type) VALID_STRUCTURES = true ->
     str_in (lower structure_type) (supported_structures element_props) = true ->
     0 < a ->
     generate_structure registry element structure_type lattice_constant size c_over_a
       = Raise (ValueError
           "Invalid supercell size: {size}. All dimensions must be positive")).
Proof.
  intros Hsize. split.
  - destruct (resolve_request registry element structure_type lattice_constant
                size c_over_a) as [rq|e] eqn:H.
    + exfalso. apply resolve_request_Ok in H.
      destruct H as (_ & nx & ny & nz & _ & _ & _ & _ & -> & Hx & Hy & Hz & _).
      apply Exists_exists in Hsize. destruct Hsize as (n & Hin & Hn).
      simpl in Hin. intuition lia.
    + exists e. split; [reflexivity|].
      unfold generate_structure. now rewrite H.
  - intros props a Hreg Hlc Hlen Hvalid Hsup Ha.
    unfold generate_structure, resolve_request, getitem. rewrite Hreg.
    cbn [bind].
    destruct lattice_constant as [a'|];
      [injection Hlc as -> | rewrite Hlc]; cbn [bind].
    all: unfold validate_input; rewrite Hlen, Hreg, !lower_idempotent, Hvalid, Hsup.
    all: rewrite (proj2 (Rleb_false a 0)) by exact Ha.
    all: rewrite (existsb_nonpositive _ Hsize); reflexivity.
Qed.
End Refusals.

(** ** The checks of [validate_structure] *)

Lemma lengths_pass (l : list R) :
  Forall (fun x => 0 < x) l -> existsb (fun x => Rleb x 0) l = false.
Proof.
  intros H. apply existsb_false_Forall.
  eapply Forall_impl; [|exact H]. intros x Hx. now apply Rleb_false.
Qed.

Lemma angles_pass (l : list R) :
  Forall (fun x => Rabs x <= 180) l -> existsb (fun x => Rltb 180 (Rabs x)) l = false.
Proof.
  intros H. apply existsb_false_Forall.
  eapply Forall_impl; [|exact H]. intros x Hx. now apply Rltb_false.
Qed.

Lemma angles_fail (l : list R) :
  Exists (fun x => 180 < Rabs x) l -> existsb (fun x => Rltb 180 (Rabs x)) l = true.
Proof.
  intros H. apply existsb_exists. apply Exists_exists in H.
  destruct H as (x & Hin & Hx). exists x. split; [exact Hin|]. now apply Rltb_true.
Qed.

Section ValidatorFacts.
Context {G : Geometry}.

(** C3.  Angle check: once the containment and length checks have passed,
    [validate_structure] raises the [ValueError] "Invalid cell parameters:
    angles must be between 0 and 180 degrees" when some angle exceeds 180
    degrees in absolute value, and returns normally when every angle is at
    most 180 degrees in absolute value, an angle of 0 included. *)
Theorem angle_check (atoms : Atoms) :
  Forall in_unit_cell (get_scaled_positions atoms) ->
  Forall (fun l => 0 < l) (firstn 3 (cell_to_cellpar (get_cell atoms))) ->
  (Exists (fun x => 180 < Rabs x) (skipn 3 (cell_to_cellpar (get_cell atoms))) ->
   validate_structure atoms =
     Raise (ValueError
       "Invalid cell parameters: angles must be between 0 and 180 degrees")) /\
  (Forall (fun x => Rabs x <= 180) (skipn 3 (cell_to_cellpar (get_cell atoms))) ->
   validate_structure atoms = Ok tt).
Proof.
  intros Hin Hlen. unfold validate_structure.
  rewrite (containment_passes _ Hin), (lengths_pass _ Hlen). split.
  - intros H. now rewrite (angles_fail _ H).
  - intros H. now rewrite (angles_pass _ H).
Qed.
End ValidatorFacts.

(** With the fold of ASE in force, a structure that is periodic along its
    three axes passes the containment check wherever its atoms are. *)
Lemma folded_positions_contained (atoms : Atoms) :
  get_pbc atoms = (true, true, true) ->
  Forall in_unit_cell (get_scaled_positions (Geometry := ase_geometry true) atoms).
Proof.
  intros Hpbc.
  change (Forall in_unit_cell (ase_get_scaled_positions true atoms)).
  unfold ase_get_scaled_positions. rewrite Hpbc.
  apply Forall_forall. intros s Hs. apply in_map_iff in Hs.
  destruct Hs as (p & <- & _).
  destruct (scaled_position (get_cell atoms) p) as [[s0 s1] s2].
  unfold in_unit_cell, wrap. simpl.
  destruct (base_fp (frac_part s0)), (base_fp (frac_part s1)), (base_fp (frac_part s2)).
  repeat split; lra.
Qed.

(** ** Runs on the registry of the program *)

Lemma cu_fcc_222_served :
  exists s,
    generate_structure (G := ase_geometry true) ELEMENTS "Cu" "fcc" None
      DEFAULT_SUPERCELL_SIZE None = Ok s.
Proof.
  eapply generate_structure_succeeds with (family := FCC) (a := 361 / 100);
    try reflexivity; try lia; try lra; discriminate.
Qed.

Lemma cu_fcc_negative_ratio_served :
  exists s,
    generate_structure (G := ase_geometry true) ELEMENTS "Cu" "FCC" None
      [1; 1; 1]%Z (Some (-1)) = Ok s.
Proof.
  eapply generate_structure_succeeds with (family := FCC) (a := 361 / 100);
    try reflexivity; try lia; try lra; discriminate.
Qed.

Lemma ti_hcp_served (nz : Z) :
  (0 < nz)%Z ->
  exists s,
    generate_structure (G := ase_geometry true) ELEMENTS "Ti" "hcp" None
      [1; 1; nz]%Z None = Ok s.
Proof.
  intros Hz.
  eapply generate_structure_succeeds with (family := HCP) (a := 295 / 100);
    try reflexivity; try lia; try lra.
  intros _. exists (1587 / 1000). split; [reflexivity | lra].
Qed.

Lemma ti_default_ratio (c_over_a : option R) (r : R) :
  c_over_a = None ->
  (c_over_a = Some r \/
   c_over_a = None /\
   exists element_props,
     dict_get ELEMENTS "Ti" = Some element_props /\
     get_c_over_a element_props = Some r) ->
  r = 1587 / 1000.
Proof.
  intros -> [H | (_ & props & Hreg & Hr)]; [discriminate|].
  simpl in Hreg. injection Hreg as <-. unfold get_c_over_a in Hr. simpl in Hr.
  now injection Hr as <-.
Qed.

Lemma Rabs_le_180 (x : R) : 0 <= x <= 180 -> Rabs x <= 180.
Proof. intros H. rewrite Rabs_pos_eq; lra. Qed.


Lemma origin_in_unit_cell : Forall in_unit_cell [(0, 0, 0)].
Proof. apply Forall_cons; [simpl; lra | apply Forall_nil]. Qed.

Lemma atom_count_law_witness :
  exists s,
    generate_structure (G := ase_geometry true) ELEMENTS "Cu" "fcc" None [2; 2; 2]%Z None
      = Ok s /\
    Metadata.num_atoms (metadata s) = 32%Z /\
    Z.of_nat (List.length (positions s)) = 32%Z /\
    Z.of_nat (List.length (numbers s)) = 32%Z.
Proof.
  destruct cu_fcc_222_served as [s Hs]. exists s. split; [exact Hs|].
  destruct (atom_count_law ELEMENTS "Cu" "fcc" None 2 2 2 None s Hs)
    as (family & Hf & Hn & Hp & Hnum).
  vm_compute in Hf. injection Hf as <-.
  rewrite Hp, Hnum, Hn. repeat split.
Defined.

Lemma cell_scaling_law_witness :
  exists s,
    generate_structure (G := ase_geometry true) ELEMENTS "Cu" "fcc" None [2; 2; 2]%Z None
      = Ok s /\
    exists family unit a b c,
      structure_family (lower "fcc") = Some family /\
      bulk "Cu" family (Metadata.lattice_constant (metadata s))
        (c_parameter family (Metadata.lattice_constant (metadata s))
           (Metadata.c_over_a (metadata s))) = Ok unit /\
      get_cell unit = (a, b, c) /\
      row 0 (cell s) = vec_tolist (vscale 2 a) /\
      row 1 (cell s) = vec_tolist (vscale 2 b) /\
      row 2 (cell s) = vec_tolist (vscale 2 c).
Proof.
  destruct cu_fcc_222_served as [s Hs]. exists s. split; [exact Hs|].
  exact (cell_scaling_law ELEMENTS "Cu" "fcc" None 2 2 2 None s Hs).
Defined.

Lemma c_over_a_round_trip_witness :
  exists s,
    generate_structure (G := ase_geometry true) ELEMENTS "Ti" "hcp" None [1; 1; 1]%Z None
      = Ok s /\
    within_1e10
      (rounded_axis_ratio inflate
         (rounded_hcp_cell inflate (295 / 100) (1587 / 1000) 1 1 1))
      (1587 / 1000).
Proof.
  destruct (ti_hcp_served 1 eq_refl) as [s Hs]. exists s. split; [exact Hs|].
  destruct (hcp_request ELEMENTS (ase_geometry true) "Ti" "hcp" None 1 1 1 None s
              Hs eq_refl) as (props0 & r0 & Hreg0 & Ha & _).
  simpl in Hreg0. injection Hreg0 as <-. simpl in Ha. injection Ha as Ha.
  destruct (c_over_a_round_trip ELEMENTS (ase_geometry true) "Ti" "hcp" None 1 1 1 None s
              inflate (1 / 10) 100 Hs eq_refl (inflate_accurate _ _))
    as (props & r & Hreg & Hsrc & _ & _ & Hround).
  simpl in Hreg. injection Hreg as <-.
  unfold resolved_c_over_a, get_c_over_a in Hsrc. simpl in Hsrc. injection Hsrc as <-.
  rewrite <- Ha in Hround. apply Hround; [|reflexivity].
  unfold in_range, normal. repeat split; lra.
Defined.

Lemma species_homogeneity_witness :
  exists s,
    generate_structure (G := ase_geometry true) ELEMENTS "Cu" "fcc" None [2; 2; 2]%Z None
      = Ok s /\
    Forall (eq 29%Z) (numbers s).
Proof.
  destruct cu_fcc_222_served as [s Hs]. exists s. split; [exact Hs|].
  destruct (species_homogeneity (ase_geometry true) "Cu" "fcc" None [2; 2; 2]%Z None s Hs)
    as (props & Hreg & Hall).
  simpl in Hreg. injection Hreg as <-. exact Hall.
Defined.

Lemma cubic_ignores_c_over_a_witness :
  exists s,
    generate_structure (G := ase_geometry true) ELEMENTS "Cu" "FCC" None [1; 1; 1]%Z
      (Some (-1)) = Ok s /\
    Metadata.c_over_a (metadata s) = None /\
    generate_structure (G := ase_geometry true) ELEMENTS "Cu" "FCC" None [1; 1; 1]%Z None
      = Ok s.
Proof.
  destruct cu_fcc_negative_ratio_served as [s Hs]. exists s. split; [exact Hs|].
  destruct (cubic_ignores_c_over_a ELEMENTS (G := ase_geometry true) "Cu" "FCC" None
              [1; 1; 1]%Z (Some (-1)) (or_introl eq_refl)) as [Hnone Hsame].
  split; [exact (Hnone s Hs)|]. rewrite <- Hsame. exact Hs.
Defined.

Lemma hcp_without_ratio_fails_witness :
  exists e,
    generate_structure (G := ase_geometry true) ELEMENTS "Cu" "hcp" (Some (361 / 100))
      [2; 2; 2]%Z None = Raise e.
Proof.
  apply (hcp_without_ratio_fails ELEMENTS (G := ase_geometry true) "Cu" "hcp"
           (Some (361 / 100)) [2; 2; 2]%Z eq_refl).
  intros props Hreg. simpl in Hreg. injection Hreg as <-. reflexivity.
Defined.

Lemma nonpositive_replication_refused_witness :
  generate_structure (G := ase_geometry true) ELEMENTS "Cu" "fcc" None [0; 1; 1]%Z None =
  Raise (ValueError "Invalid supercell size: {size}. All dimensions must be positive").
Proof.
  assert (Hsize : Exists (fun n => (n <= 0)%Z) [0; 1; 1]%Z)
    by (apply Exists_cons_hd; lia).
  destruct (nonpositive_replication_refused ELEMENTS (G := ase_geometry true) "Cu" "fcc"
              None [0; 1; 1]%Z None Hsize) as [_ Herr].
  eapply (Herr _ (361 / 100)); try reflexivity. lra.
Defined.

Lemma unit_lengths : Forall (fun l => 0 < l) [1; 1; 1].
Proof. repeat (apply Forall_cons; [lra|]). apply Forall_nil. Qed.

Lemma angle_check_witness :
  validate_structure (G := flat_geometry) atom_in_flat_cell = Ok tt /\
  validate_structure (G := reflex_geometry) atom_in_flat_cell =
  Raise (ValueError "Invalid cell parameters: angles must be between 0 and 180 degrees").
Proof.
  split.
  - apply (angle_check (G := flat_geometry) atom_in_flat_cell
             origin_in_unit_cell unit_lengths).
    simpl. repeat (apply Forall_cons; [apply Rabs_le_180; lra|]). apply Forall_nil.
  - apply (angle_check (G := reflex_geometry) atom_in_flat_cell
             origin_in_unit_cell unit_lengths).
    simpl. apply Exists_cons_tl, Exists_cons_tl, Exists_cons_hd.
    rewrite Rabs_pos_eq; lra.
Defined.

(** ** Where the design and the program part *)

(** Decide the comparisons of a run on given numbers. *)
Ltac decide_comparisons :=
  repeat match goal with
  | |- context [Rabs ?x] => rewrite (Rabs_pos_eq x) by lra
  | |- context [Rleb ?x ?y] =>
      first [ rewrite (proj2 (Rleb_true x y)) by lra
            | rewrite (proj2 (Rleb_false x y)) by lra ]
  | |- context [Rltb ?x ?y] =>
      first [ rewrite (proj2 (Rltb_true x y)) by lra
            | rewrite (proj2 (Rltb_false x y)) by lra ]
  end.


(** Against C3 as stated: a cell whose angle gamma is reported as 0 degrees
    passes [validate_structure]; and the error raised for an angle beyond
    180 degrees does not carry the text "angle out of range". *)
Lemma zero_angle_accepted :
  (nth 5 (cell_to_cellpar (Geometry := flat_geometry) (get_cell atom_in_flat_cell)) 90
     = 0 /\
   validate_structure (G := flat_geometry) atom_in_flat_cell = Ok tt) /\
  (exists msg,
     validate_structure (G := reflex_geometry) atom_in_flat_cell
       = Raise (ValueError msg) /\
     mentions msg "angle out of range" = false).
Proof.
  split; [split|].
  - reflexivity.
  - unfold validate_structure. simpl. decide_comparisons. reflexivity.
  - exists "Invalid cell parameters: angles must be between 0 and 180 degrees".
    split; [|reflexivity].
    unfold validate_structure. simpl. decide_comparisons. reflexivity.
Qed.

(** Against C7 as stated: titanium hcp with the default ratio 1.587,
    replicated (1, 1, 2), is generated with an axis ratio of twice 1.587. *)
Lemma anisotropic_hcp_ratio :
  exists s,
    generate_structure (G := ase_geometry true) ELEMENTS "Ti" "hcp" None [1; 1; 2]%Z None
      = Ok s /\
    Metadata.c_over_a (metadata s) = Some (1587 / 1000) /\
    list_norm (row 2 (cell s)) / list_norm (row 0 (cell s)) = 2 * (1587 / 1000) /\
    ~ within_1e10 (list_norm (row 2 (cell s)) / list_norm (row 0 (cell s)))
        (1587 / 1000).
Proof.
  destruct (ti_hcp_served 2 eq_refl) as [s Hs]. exists s. split; [exact Hs|].
  destruct (hcp_axis_ratio ELEMENTS (ase_geometry true) "Ti" "hcp" None 1 1 2 None s
              Hs eq_refl) as (r & Hmeta & Hsrc & Hratio).
  pose proof (ti_default_ratio None r eq_refl Hsrc) as ->.
  split; [exact Hmeta|]. rewrite Hratio. split; [field|].
  unfold within_1e10.
  replace (1587 / 1000 * 2 / 1 - 1587 / 1000) with (1587 / 1000) by field.
  rewrite Rabs_pos_eq by lra. lra.
Qed.

(** * Further properties of the code *)

(** ** [validate_input]: what is accepted *)

Lemma Forall_positive_size (size : list Z) :
  existsb (fun s => (s <=? 0)%Z) size = false <-> Forall (fun n => (0 < n)%Z) size.
Proof.
  rewrite existsb_false_Forall. split; intros H; eapply Forall_impl; try exact H;
    intros n Hn; simpl in *; [now apply Z.leb_gt | now apply Z.leb_gt].
Qed.

Lemma Rleb_false_not (x y : R) : Rleb x y = false <-> ~ x <= y.
Proof. unfold Rleb. destruct (Rle_dec x y); split; intros; congruence. Qed.

Lemma Rltb_false_not (x y : R) : Rltb x y = false <-> ~ x < y.
Proof. unfold Rltb. destruct (Rlt_dec x y); split; intros; congruence. Qed.

Lemma Forall_size_guard (size : list Z) :
  existsb (fun s => (s <=? 0)%Z) size = false <->
  Forall (fun n => ~ (n <= 0)%Z) size.
Proof.
  rewrite existsb_false_Forall. split; intros H; eapply Forall_impl; try exact H;
    intros n Hn; simpl in *.
  - apply Z.leb_gt in Hn. lia.
  - apply Z.leb_gt. lia.
Qed.

(** X1.  [validate_input] returns normally exactly when none of its guards
    fires: [size] has three components, none of them [<= 0]; the element is
    registered; the lower-cased structure type is one of fcc, bcc, hcp and
    is supported by the element; the lattice constant is not [<= 0]; and,
    for hcp, a supplied c/a ratio is not [<= 0] or, when none is supplied,
    the element has hcp parameters.  The numeric conditions are the
    negated comparisons of the source. *)
Theorem validate_input_accepts_iff registry element structure_type lattice_constant
    size c_over_a :
  validate_input registry element structure_type lattice_constant size c_over_a = Ok tt
  <->
  exists element_props,
    List.length size = 3%nat /\
    dict_get registry element = Some element_props /\
    str_in (lower structure_type) VALID_STRUCTURES = true /\
    str_in (lower structure_type) (supported_structures element_props) = true /\
    ~ lattice_constant <= 0 /\
    Forall (fun n => ~ (n <= 0)%Z) size /\
    (lower structure_type = "hcp" ->
     match c_over_a with
     | Some r => ~ r <= 0
     | None => hcp_parameters element_props <> None
     end).
Proof.
  unfold validate_input. split.
  - intros H. bind_inv H. apply negb_false_iff, Nat.eqb_eq in Hc.
    destruct (dict_get registry element) as [props|]; [|discriminate].
    bind_inv H0. bind_inv H1. bind_inv H0. bind_inv H1.
    apply negb_false_iff in Hc0, Hc1. apply Rleb_false_not in Hc2.
    apply Forall_size_guard in Hc3.
    exists props. repeat split; auto.
    intros Hhcp. rewrite Hhcp in H0. simpl in H0.
    destruct c_over_a as [r|].
    + apply raise_if_Ok in H0. now apply Rleb_false_not in H0.
    + destruct (hcp_parameters props); [discriminate | discriminate].
  - intros (props & Hlen & Hreg & Hvalid & Hsup & Ha & Hsize & Hhcp).
    rewrite Hlen, Hreg, Hvalid, Hsup.
    rewrite (proj2 (Rleb_false_not lattice_constant 0)) by exact Ha.
    rewrite (proj2 (Forall_size_guard size)) by exact Hsize.
    cbn [Nat.eqb negb raise_if bind].
    destruct (String.eqb (lower structure_type) "hcp") eqn:E; [|reflexivity].
    apply String.eqb_eq in E. specialize (Hhcp E).
    destruct c_over_a as [r|].
    + now rewrite (proj2 (Rleb_false_not r 0)).
    + destruct (hcp_parameters props); [reflexivity | contradiction].
Qed.

(** ** [generate_structure]: how a request is resolved *)

Section Resolution.
Variable registry : dict ElementProperties.
Context {G : Geometry}.

(** With the element registered and a lattice constant at hand, resolving
    a request comes down to [validate_input] on the resolved arguments. *)
Lemma resolve_request_validates element structure_type lattice_constant size c_over_a
    element_props a :
  dict_get registry element = Some element_props ->
  resolved_lattice_constant element_props (lower structure_type) lattice_constant
    = Some a ->
  resolve_request registry element structure_type lattice_constant size c_over_a =
  (validate_input registry element (lower structure_type) a size
     (resolved_c_over_a element_props (lower structure_type) c_over_a) ;;;
   Ok {| req_element := element;
         req_structure_type := lower structure_type;
         req_lattice_constant := a;
         req_size := size;
         req_c_over_a :=
           resolved_c_over_a element_props (lower structure_type) c_over_a |}).
Proof.
  intros Hreg Hlc. unfold resolve_request, getitem. rewrite Hreg. cbn [bind].
  assert (Hlc' :
    match lattice_constant with
    | Some a0 => Ok a0
    | None =>
        match dict_get (lattice_constants element_props) (lower structure_type) with
        | Some a0 => Ok a0
        | None => Raise (ValueError
            "No default lattice constant for {element} {structure_type}. Please provide one.")
        end
    end = Ok a).
  { unfold resolved_lattice_constant in Hlc.
    destruct lattice_constant as [a'|]; [congruence|]. now rewrite Hlc. }
  rewrite Hlc'. cbn [bind].
  replace (if (String.eqb (lower structure_type) "hcp" && is_none c_over_a)%bool
           then match hcp_parameters element_props with
                | Some p => dict_get p "c_over_a"
                | None => c_over_a
                end
           else c_over_a)
    with (resolved_c_over_a element_props (lower structure_type) c_over_a);
    [reflexivity|].
  unfold resolved_c_over_a, get_c_over_a.
  destruct (String.eqb (lower structure_type) "hcp"), c_over_a; reflexivity.
Qed.

Lemma generate_structure_refused element structure_type lattice_constant size c_over_a e :
  resolve_request registry element structure_type lattice_constant size c_over_a
    = Raise e ->
  generate_structure registry element structure_type lattice_constant size c_over_a
    = Raise e.
Proof. intros H. unfold generate_structure. now rewrite H. Qed.

(** X2.  Case insensitivity: two structure types with the same lower-case
    form give the same result, returned record or exception. *)
Theorem generate_structure_case_insensitive element structure_type structure_type'
    lattice_constant size c_over_a :
  lower structure_type = lower structure_type' ->
  generate_structure registry element structure_type lattice_constant size c_over_a =
  generate_structure registry element structure_type' lattice_constant size c_over_a.
Proof.
  intros H. unfold generate_structure, resolve_request. now rewrite H.
Qed.

(** X3.  An element that is not in the registry raises [KeyError] on the
    element, whatever the other arguments are. *)
Theorem unknown_element_KeyError element structure_type lattice_constant size c_over_a :
  dict_get registry element = None ->
  generate_structure registry element structure_type lattice_constant size c_over_a
    = Raise (KeyError element).
Proof.
  intros H. apply generate_structure_refused.
  unfold resolve_request, getitem. now rewrite H.
Qed.

(** X4.  A structure type outside fcc, bcc, hcp, passed with a lattice
    constant for a registered element and a 3-tuple size, raises the
    "Invalid structure type" [ValueError], whatever the lattice constant,
    the size components and the c/a ratio are. *)
Theorem invalid_structure_type_error element structure_type a size c_over_a
    element_props :
  dict_get registry element = Some element_props ->
  List.length size = 3%nat ->
  str_in (lower structure_type) VALID_STRUCTURES = false ->
  generate_structure registry element structure_type (Some a) size c_over_a =
  Raise (ValueError
    "Invalid structure type: {structure_type}. Must be one of: {VALID_STRUCTURES}").
Proof.
  intros Hreg Hlen Hvalid. apply generate_structure_refused.
  rewrite (resolve_request_validates element structure_type (Some a) size
             c_over_a element_props a Hreg eq_refl).
  unfold validate_input. now rewrite Hlen, Hreg, lower_idempotent, Hvalid.
Qed.

(** X5.  A valid structure type that the element does not support, passed
    with a lattice constant and a 3-tuple size, raises the "is not
    supported for element" [ValueError]. *)
Theorem unsupported_structure_error element structure_type a size c_over_a
    element_props :
  dict_get registry element = Some element_props ->
  List.length size = 3%nat ->
  str_in (lower structure_type) VALID_STRUCTURES = true ->
  str_in (lower structure_type) (supported_structures element_props) = false ->
  generate_structure registry element structure_type (Some a) size c_over_a =
  Raise (ValueError
    "Structure type {structure_type} is not supported for element {element}").
Proof.
  intros Hreg Hlen Hvalid Hsup. apply generate_structure_refused.
  rewrite (resolve_request_validates element structure_type (Some a) size
             c_over_a element_props a Hreg eq_refl).
  unfold validate_input. now rewrite Hlen, Hreg, lower_idempotent, Hvalid, Hsup.
Qed.

(** X6.  A lattice constant that is not positive, for a registered element
    with a supported structure type and a 3-tuple size, raises the "Invalid
    lattice constant" [ValueError]; the size components are not looked at
    before. *)
Theorem nonpositive_lattice_constant_error element structure_type a size c_over_a
    element_props :
  dict_get registry element = Some element_props ->
  List.length size = 3%nat ->
  str_in (lower structure_type) VALID_STRUCTURES = true ->
  str_in (lower structure_type) (supported_structures element_props) = true ->
  a <= 0 ->
  generate_structure registry element structure_type (Some a) size c_over_a =
  Raise (ValueError "Invalid lattice constant: {lattice_constant}. Must be positive").
Proof.
  intros Hreg Hlen Hvalid Hsup Ha. apply generate_structure_refused.
  rewrite (resolve_request_validates element structure_type (Some a) size
             c_over_a element_props a Hreg eq_refl).
  unfold validate_input. rewrite Hlen, Hreg, lower_idempotent, Hvalid, Hsup.
  now rewrite (proj2 (Rleb_true a 0)).
Qed.

(** X7.  For hcp, a supplied c/a ratio that is not positive raises the "HCP
    structures require a positive c/a ratio" [ValueError] once the element,
    the lattice constant (given or defaulted) and the size are in order. *)
Theorem nonpositive_ratio_error element structure_type lattice_constant size r
    element_props a :
  dict_get registry element = Some element_props ->
  lower structure_type = "hcp" ->
  str_in "hcp" (supported_structures element_props) = true ->
  resolved_lattice_constant element_props "hcp" lattice_constant = Some a ->
  0 < a ->
  List.length size = 3%nat ->
  Forall (fun n => (0 < n)%Z) size ->
  r <= 0 ->
  generate_structure registry element structure_type lattice_constant size (Some r) =
  Raise (ValueError "HCP structures require a positive c/a ratio").
Proof.
  intros Hreg Hst Hsup Hlc Ha Hlen Hsize Hr. apply generate_structure_refused.
  rewrite <- Hst in Hlc, Hsup.
  rewrite (resolve_request_validates _ _ _ _ _ _ a Hreg Hlc).
  unfold validate_input.
  rewrite Hlen, Hreg, lower_idempotent, Hsup, Hst.
  rewrite (proj2 (Rleb_false a 0)) by exact Ha.
  rewrite (proj2 (Forall_positive_size size)) by exact Hsize.
  unfold resolved_c_over_a. simpl.
  now rewrite (proj2 (Rleb_true r 0)).
Qed.

(** X8.  For hcp without a c/a ratio and without a default in the registry,
    an otherwise valid request raises one of two errors: [validate_input]'s
    "No default c/a ratio" when the entry has no hcp parameters, and
    "c/a ratio is required for HCP structures" (line 73) when it has hcp
    parameters without the key [c_over_a]. *)
Theorem missing_ratio_errors element structure_type lattice_constant size
    element_props a :
  dict_get registry element = Some element_props ->
  lower structure_type = "hcp" ->
  str_in "hcp" (supported_structures element_props) = true ->
  resolved_lattice_constant element_props "hcp" lattice_constant = Some a ->
  0 < a ->
  List.length size = 3%nat ->
  Forall (fun n => (0 < n)%Z) size ->
  get_c_over_a element_props = None ->
  generate_structure registry element structure_type lattice_constant size None =
  Raise (ValueError
    match hcp_parameters element_props with
    | None => "No default c/a ratio for {element}. Please provide one."
    | Some _ => "c/a ratio is required for HCP structures"
    end).
Proof.
  intros Hreg Hst Hsup Hlc Ha Hlen Hsize Hnone.
  rewrite <- Hst in Hlc, Hsup. unfold generate_structure.
  rewrite (resolve_request_validates _ _ _ _ _ _ a Hreg Hlc).
  unfold validate_input.
  rewrite Hlen, Hreg, lower_idempotent, Hsup, Hst.
  rewrite (proj2 (Rleb_false a 0)) by exact Ha.
  rewrite (proj2 (Forall_positive_size size)) by exact Hsize.
  unfold resolved_c_over_a. simpl. rewrite Hnone.
  destruct (hcp_parameters element_props); reflexivity.
Qed.

Lemma explicit_defaults_same element structure_type size c_over_a element_props a :
  dict_get registry element = Some element_props ->
  dict_get (lattice_constants element_props) (lower structure_type) = Some a ->
  c_over_a = None \/
  (lower structure_type = "hcp" /\ c_over_a = get_c_over_a element_props) ->
  generate_structure registry element structure_type (Some a) size c_over_a =
  generate_structure registry element structure_type None size None.
Proof.
  intros Hreg Hlc Hcoa. unfold generate_structure.
  rewrite (resolve_request_validates element structure_type (Some a) size
             c_over_a element_props a Hreg eq_refl).
  rewrite (resolve_request_validates _ _ None _ None _ a Hreg Hlc).
  replace (resolved_c_over_a element_props (lower structure_type) c_over_a)
    with (resolved_c_over_a element_props (lower structure_type) None);
    [reflexivity|].
  destruct Hcoa as [-> | [Hst ->]]; [reflexivity|].
  unfold resolved_c_over_a. rewrite Hst. simpl.
  now destruct (get_c_over_a element_props).
Qed.

(** X9.  Passing the defaults of the registry explicitly changes nothing:
    a call with the default lattice constant, and for hcp the default c/a
    ratio, gives the same result as the call that leaves them out. *)
Theorem explicit_defaults_redundant element structure_type size c_over_a
    element_props a :
  dict_get registry element = Some element_props ->
  dict_get (lattice_constants element_props) (lower structure_type) = Some a ->
  c_over_a = None \/
  (lower structure_type = "hcp" /\ c_over_a = get_c_over_a element_props) ->
  generate_structure registry element structure_type (Some a) size c_over_a =
  generate_structure registry element structure_type None size None.
Proof. exact (explicit_defaults_same element structure_type size c_over_a element_props a). Qed.
End Resolution.

(** ** [generate_structure]: errors that cannot come out *)

(** Take apart a sequence of guarded statements, branch by branch. *)
Ltac split_guards :=
  repeat match goal with
  | |- context [raise_if ?c _] => destruct c; cbn [raise_if bind]
  | |- context [if ?c then _ else _] => destruct c
  | |- context [match ?x with Some _ => _ | None => _ end] => destruct x
  end.

Ltac not_dead :=
  let H := fresh in
  intros H; try discriminate H; injection H as <-;
  intros [H | H]; discriminate H.

Lemma validate_input_alive registry element structure_type a size c_over_a e
    element_props :
  dict_get registry element = Some element_props ->
  validate_input registry element structure_type a size c_over_a = Raise e ->
  ~ dead_error e.
Proof.
  intros Hreg. unfold validate_input. rewrite Hreg.
  split_guards; not_dead.
Qed.

Lemma validate_structure_alive (G : Geometry) atoms e :
  validate_structure atoms = Raise e -> ~ dead_error e.
Proof. unfold validate_structure. split_guards; not_dead. Qed.

Lemma bulk_alive name family a c e :
  bulk name family a c = Raise e -> ~ dead_error e.
Proof. unfold bulk. split_guards; not_dead. Qed.

Lemma atoms_repeat_alive atoms size e :
  atoms_repeat atoms size = Raise e -> ~ dead_error e.
Proof.
  unfold atoms_repeat.
  destruct size as [|nx [|ny [|nz [|? ?]]]]; try not_dead.
  destruct ((0 <? nx)%Z && (0 <? ny)%Z && (0 <? nz)%Z); not_dead.
Qed.

Section DeadErrors.
Variable registry : dict ElementProperties.
Context {G : Geometry}.

Lemma resolve_request_alive element structure_type lattice_constant size c_over_a e :
  resolve_request registry element structure_type lattice_constant size c_over_a
    = Raise e ->
  ~ dead_error e.
Proof.
  unfold resolve_request, getitem.
  destruct (dict_get registry element) as [props|] eqn:Hreg; cbn [bind]; [|not_dead].
  destruct lattice_constant as [a|]; cbn [bind].
  - destruct (validate_input _ _ _ _ _ _) as [u|e'] eqn:Hv; cbn [bind]; [discriminate|].
    intros [= <-]. exact (validate_input_alive _ _ _ _ _ _ _ _ Hreg Hv).
  - destruct (dict_get (lattice_constants props) (lower structure_type)) as [a|];
      cbn [bind]; [|not_dead].
    destruct (validate_input _ _ _ _ _ _) as [u|e'] eqn:Hv; cbn [bind]; [discriminate|].
    intros [= <-]. exact (validate_input_alive _ _ _ _ _ _ _ _ Hreg Hv).
Qed.

(** X10.  Whatever exception [generate_structure] raises, it is neither
    [validate_input]'s "Unsupported element" error (the registry lookup
    raises [KeyError] first) nor the "Unknown structure" error of its last
    [else] (the validated structure type is always one of the three). *)
Theorem dead_errors_never_raised element structure_type lattice_constant size
    c_over_a e :
  generate_structure registry element structure_type lattice_constant size c_over_a
    = Raise e ->
  e <> ValueError
         "Unsupported element: {element}. Supported elements: {list(ELEMENTS.keys())}" /\
  e <> ValueError "Unknown structure: {structure_type}".
Proof.
  intros H. assert (Halive : ~ dead_error e).
  { revert H. unfold generate_structure.
    destruct (resolve_request registry element structure_type lattice_constant
                size c_over_a) as [rq|e0] eqn:Hrq; cbn [bind].
    - destruct (resolve_request_Ok _ _ _ _ _ _ _ Hrq)
        as (props & _ & _ & _ & _ & _ & Hst & _ & _ & _ & _ & _ & _ & _ & Hvalid & _).
      unfold build_structure.
      destruct (base_structure rq) as [unit|e1] eqn:Hbase; cbn [bind].
      + destruct (atoms_repeat unit (req_size rq)) as [tiled|e2] eqn:Hrep; cbn [bind].
        * destruct (validate_structure tiled) as [u|e3] eqn:Hv; cbn [bind];
            [discriminate|].
          intros [= <-]. exact (validate_structure_alive _ _ _ Hv).
        * intros [= <-]. exact (atoms_repeat_alive _ _ _ Hrep).
      + intros [= <-]. revert Hbase. unfold base_structure. rewrite Hst.
        destruct (str_in_valid _ Hvalid) as [-> | [-> | ->]]; simpl.
        * apply bulk_alive.
        * apply bulk_alive.
        * destruct (req_c_over_a rq); [apply bulk_alive | not_dead].
    - intros [= <-]. exact (resolve_request_alive _ _ _ _ _ _ Hrq). }
  unfold dead_error in Halive. split; intros ->; apply Halive; auto.
Qed.
End DeadErrors.

(** ** [generate_structure]: what the record says about the request *)

(** X11.  The metadata of a returned record echo the resolved request: the
    element as given, the structure type in lower case, the size as given,
    the lattice constant the caller gave or else the default of the
    registry, and for hcp the c/a ratio the caller gave or else the
    default. *)
Theorem metadata_echo registry (G : Geometry) element structure_type lattice_constant
    size c_over_a s :
  generate_structure registry element structure_type lattice_constant size c_over_a
    = Ok s ->
  exists element_props,
    dict_get registry element = Some element_props /\
    Metadata.element (metadata s) = element /\
    Metadata.structure_type (metadata s) = lower structure_type /\
    Metadata.supercell_size (metadata s) = size /\
    resolved_lattice_constant element_props (lower structure_type) lattice_constant
      = Some (Metadata.lattice_constant (metadata s)) /\
    Metadata.c_over_a (metadata s) =
      (if String.eqb (lower structure_type) "hcp"
       then resolved_c_over_a element_props "hcp" c_over_a
       else None).
Proof.
  intros H. apply generate_structure_Ok in H.
  destruct H as (rq & family & unit & nx & ny & nz & Hrq & _ & _ & _ & _ & _ & _ & _ & ->).
  apply resolve_request_Ok in Hrq.
  destruct Hrq as (props & _ & _ & _ & Hreg & He & Hst & Hsz & _ & _ & _ & _ & _ &
                   Hlc & _ & _ & Hcoa & _).
  exists props. simpl. rewrite He, Hst, Hsz, Hcoa. repeat split; auto.
  - unfold resolved_lattice_constant.
    destruct Hlc as [-> | [-> Hd]]; [reflexivity | exact Hd].
  - unfold resolved_c_over_a.
    destruct (String.eqb (lower structure_type) "hcp"); reflexivity.
Qed.

(** ** The registry of the program *)

(** Every entry of [ELEMENTS] is complete for the structures it supports:
    the structure is one of the three families, it has a positive default
    lattice constant, and hcp comes with a positive default c/a ratio. *)
Lemma registry_entry_complete element element_props structure_type :
  dict_get ELEMENTS element = Some element_props ->
  str_in structure_type (supported_structures element_props) = true ->
  exists family a,
    structure_family structure_type = Some family /\
    dict_get (lattice_constants element_props) structure_type = Some a /\
    0 < a /\
    (family = HCP -> exists r, get_c_over_a element_props = Some r /\ 0 < r).
Proof.
  unfold ELEMENTS. simpl.
  repeat match goal with
  | |- context [String.eqb element ?k] =>
      destruct (String.eqb element k) eqn:?E; [ clear E; intros [= <-] | clear E ]
  end; try discriminate.
  all: unfold str_in; simpl; rewrite orb_false_r; intros Hst;
    apply String.eqb_eq in Hst; subst structure_type.
  all: try (exists FCC; eexists; repeat split; [lra | discriminate]).
  all: try (exists BCC; eexists; repeat split; [lra | discriminate]).
  all: exists HCP; eexists; repeat split; [lra | intros _; eexists; split; [reflexivity | lra]].
Qed.

(** A default lattice constant is registered for supported structures
    only. *)
Lemma registry_defaults_only_supported element element_props structure_type :
  dict_get ELEMENTS element = Some element_props ->
  str_in structure_type (supported_structures element_props) = false ->
  dict_get (lattice_constants element_props) structure_type = None.
Proof.
  unfold ELEMENTS. simpl.
  repeat match goal with
  | |- context [String.eqb element ?k] =>
      destruct (String.eqb element k) eqn:?E; [ clear E; intros [= <-] | clear E ]
  end; try discriminate.
  all: unfold str_in; simpl; rewrite orb_false_r; intros ->; reflexivity.
Qed.

(** X12.  With the registry of the program, a request that leaves the
    lattice constant and the c/a ratio to the defaults passes the input
    validation for every registered element, every structure type the
    element supports (in any letter case) and every size of three positive
    counts. *)
Theorem registry_defaults_accepted element element_props structure_type nx ny nz :
  dict_get ELEMENTS element = Some element_props ->
  str_in (lower structure_type) (supported_structures element_props) = true ->
  (0 < nx)%Z -> (0 < ny)%Z -> (0 < nz)%Z ->
  exists rq,
    resolve_request ELEMENTS element structure_type None [nx; ny; nz] None = Ok rq /\
    0 < req_lattice_constant rq /\
    (lower structure_type = "hcp" -> exists r, req_c_over_a rq = Some r /\ 0 < r).
Proof.
  intros Hreg Hsup Hx Hy Hz.
  destruct (registry_entry_complete _ _ _ Hreg Hsup) as (family & a & Hf & Hlc & Ha & Hr).
  rewrite (resolve_request_validates ELEMENTS element structure_type None [nx; ny; nz]
             None element_props a Hreg Hlc).
  assert (Hcoa : lower structure_type = "hcp" ->
            exists r, resolved_c_over_a element_props (lower structure_type) None
                      = Some r /\ 0 < r).
  { intros E. unfold resolved_c_over_a. rewrite E. simpl. apply Hr.
    rewrite E in Hf. now injection Hf as <-. }
  rewrite validate_input_accepts with (element_props := element_props); auto.
  - eexists. split; [reflexivity|]. simpl. split; [exact Ha | exact Hcoa].
  - rewrite lower_idempotent. exact (structure_family_valid _ _ Hf).
  - now rewrite lower_idempotent.
  - rewrite lower_idempotent. exact Hcoa.
Qed.

(** X13.  With the registry of the program, asking for a structure type the
    element does not support without giving a lattice constant raises the
    "No default lattice constant" [ValueError]: the default is looked up
    before the pairing is validated. *)
Theorem unsupported_without_constant (G : Geometry) element element_props structure_type
    size c_over_a :
  dict_get ELEMENTS element = Some element_props ->
  str_in (lower structure_type) (supported_structures element_props) = false ->
  generate_structure ELEMENTS element structure_type None size c_over_a =
  Raise (ValueError
    "No default lattice constant for {element} {structure_type}. Please provide one.").
Proof.
  intros Hreg Hsup. apply generate_structure_refused.
  unfold resolve_request, getitem. rewrite Hreg. cbn [bind].
  now rewrite (registry_defaults_only_supported _ _ _ Hreg Hsup).
Qed.

(** X14.  With the registry of the program and the geometry of ASE, folding
    or not, every registered element is served with its defaults: for every
    structure type it supports and every size of three positive counts,
    [generate_structure] returns a record. *)
Theorem registry_defaults_served wrap_flag element element_props structure_type
    nx ny nz :
  dict_get ELEMENTS element = Some element_props ->
  str_in (lower structure_type) (supported_structures element_props) = true ->
  (0 < nx)%Z -> (0 < ny)%Z -> (0 < nz)%Z ->
  exists s,
    generate_structure (G := ase_geometry wrap_flag) ELEMENTS element structure_type
      None [nx; ny; nz] None = Ok s.
Proof.
  intros Hreg Hsup Hx Hy Hz.
  destruct (registry_entry_complete _ _ _ Hreg Hsup) as (family & a & Hf & Hlc & Ha & Hr).
  exact (generate_structure_succeeds wrap_flag ELEMENTS element structure_type None
           nx ny nz None element_props family a (atomic_number element_props)
           Hreg Hf Hsup Hlc Ha Hx Hy Hz Hr (registry_atomic_numbers _ _ Hreg)).
Qed.

(** ** [validate_structure]: the three checks together *)

Lemma containment_passed (l : list vec) :
  forallb (vec_all (fun x => Rleb 0 x && Rleb x 1)) l = true -> Forall in_unit_cell l.
Proof.
  intros H. apply Forall_forall. intros s Hs. apply in_unit_cell_check.
  rewrite forallb_forall in H. now apply H.
Qed.

Lemma lengths_fail (l : list R) :
  Exists (fun x => x <= 0) l -> existsb (fun x => Rleb x 0) l = true.
Proof.
  intros H. apply existsb_exists. apply Exists_exists in H.
  destruct H as (x & Hin & Hx). exists x. split; [exact Hin|]. now apply Rleb_true.
Qed.

Section ValidatorChecks.
Context {G : Geometry}.

(** X15.  Length check: once the containment check has passed, a cell
    length that is zero or negative raises the "some lengths are zero or
    negative" [ValueError], whatever the angles are. *)
Theorem length_check (atoms : Atoms) :
  Forall in_unit_cell (get_scaled_positions atoms) ->
  Exists (fun l => l <= 0) (firstn 3 (cell_to_cellpar (get_cell atoms))) ->
  validate_structure atoms =
  Raise (ValueError "Invalid cell parameters: some lengths are zero or negative").
Proof.
  intros Hin Hlen. unfold validate_structure.
  now rewrite (containment_passes _ Hin), (lengths_fail _ Hlen).
Qed.

(** X16.  [validate_structure] returns normally exactly when none of its
    three guards fires: every component of the scaled positions that ASE
    reports lies in [0, 1], no reported length is [<= 0] and no reported
    angle is [> 180] in absolute value.  The conditions on lengths and
    angles are the negated comparisons of the source. *)
Theorem validate_structure_accepts_iff (atoms : Atoms) :
  validate_structure atoms = Ok tt <->
  Forall in_unit_cell (get_scaled_positions atoms) /\
  Forall (fun l => ~ l <= 0) (firstn 3 (cell_to_cellpar (get_cell atoms))) /\
  Forall (fun x => ~ 180 < Rabs x) (skipn 3 (cell_to_cellpar (get_cell atoms))).
Proof.
  unfold validate_structure. split.
  - intros H. bind_inv H. bind_inv H0. apply raise_if_Ok in H1.
    apply negb_false_iff, containment_passed in Hc.
    apply existsb_false_Forall in Hc0, H1. repeat split; auto.
    + eapply Forall_impl; [|exact Hc0]. intros l Hl. now apply Rleb_false_not.
    + eapply Forall_impl; [|exact H1]. intros x Hx. now apply Rltb_false_not.
  - intros (Hin & Hlen & Hang).
    rewrite (containment_passes _ Hin). cbn [negb raise_if bind].
    assert (E1 : existsb (fun l => Rleb l 0)
                   (firstn 3 (cell_to_cellpar (get_cell atoms))) = false).
    { apply existsb_false_Forall. eapply Forall_impl; [|exact Hlen].
      intros l Hl. now apply Rleb_false_not. }
    assert (E2 : existsb (fun x => Rltb 180 (Rabs x))
                   (skipn 3 (cell_to_cellpar (get_cell atoms))) = false).
    { apply existsb_false_Forall. eapply Forall_impl; [|exact Hang].
      intros x Hx. now apply Rltb_false_not. }
    now rewrite E1, E2.
Qed.

End ValidatorChecks.

(** ** [validate_structure] and the fractional coordinates of the atoms *)



Lemma fold_axes_periodic s :
  in_unit_cell (fold_axes true (true, true, true) s).
Proof.
  destruct s as [[s0 s1] s2]. unfold in_unit_cell, fold_axes, wrap. simpl.
  destruct (base_fp (frac_part s0)), (base_fp (frac_part s1)), (base_fp (frac_part s2)).
  repeat split; lra.
Qed.

(** What the geometry of ASE reports: the fractional coordinate of every
    atom, folded along the folded axes. *)
Lemma ase_scaled_positions_fold wrap_flag atoms :
  get_scaled_positions (Geometry := ase_geometry wrap_flag) atoms =
  map (fold_axes wrap_flag (get_pbc atoms))
      (map (scaled_position (get_cell atoms)) (get_positions atoms)).
Proof.
  change (get_scaled_positions (Geometry := ase_geometry wrap_flag) atoms)
    with (ase_get_scaled_positions wrap_flag atoms).
  unfold ase_get_scaled_positions, fold_axes.
  destruct (get_pbc atoms) as [[p0 p1] p2]. rewrite map_map.
  apply map_ext. intros p. now destruct (scaled_position (get_cell atoms) p) as [[s0 s1] s2].
Qed.

Section FractionalCoordinates.
Context {G : Geometry}.


(** X17.  When the fractional coordinates of the atoms are finite numbers
    and [get_scaled_positions] reports them folded along the three axes
    (the default [wrap] of ASE on a structure periodic along its three
    axes), [validate_structure] never raises "Some atoms are outside the
    unit cell", wherever the atoms are. *)
Theorem periodic_never_outside (atoms : Atoms) (fractional : list vec) :
  get_pbc atoms = (true, true, true) ->
  get_scaled_positions atoms = map (fold_axes true (get_pbc atoms)) fractional ->
  validate_structure atoms <>
  Raise (ValueError "Some atoms are outside the unit cell").
Proof.
  intros Hpbc Hreported. unfold validate_structure. rewrite Hreported, Hpbc.
  rewrite containment_passes.
  - cbn [negb raise_if bind]. split_guards; discriminate.
  - apply Forall_forall. intros s Hs. apply in_map_iff in Hs.
    destruct Hs as (s' & <- & _). apply fold_axes_periodic.
Qed.
End FractionalCoordinates.

(** X18.  With the angles of ASE, computed by an arc cosine, the angle
    check never fires: [validate_structure] does not raise the "angles must
    be between 0 and 180 degrees" error on any structure. *)
Theorem ase_angles_never_refused wrap_flag (atoms : Atoms) :
  validate_structure (G := ase_geometry wrap_flag) atoms <>
  Raise (ValueError "Invalid cell parameters: angles must be between 0 and 180 degrees").
Proof.
  unfold validate_structure.
  destruct (negb _); cbn [raise_if bind]; [discriminate|].
  destruct (existsb _ _); cbn [raise_if bind]; [discriminate|].
  change (cell_to_cellpar (get_cell atoms)) with (ase_cell_to_cellpar (get_cell atoms)).
  unfold ase_cell_to_cellpar. destruct (get_cell atoms) as [[v0 v1] v2].
  cbn [skipn existsb]. rewrite !cell_angle_range. discriminate.
Qed.

(** ** common_structures.py: the batch *)

Lemma dict_get_set_same {V : Type} (d : dict V) (k : string) (v : V) :
  dict_get (dict_set d k v) k = Some v.
Proof.
  induction d as [|[k' v'] d IH]; simpl.
  - now rewrite String.eqb_refl.
  - destruct (String.eqb k k') eqn:E; simpl; rewrite ?String.eqb_refl, ?E; auto.
Qed.

Lemma dict_get_set_other {V : Type} (d : dict V) (k k' : string) (v : V) :
  k <> k' -> dict_get (dict_set d k v) k' = dict_get d k'.
Proof.
  intros Hne. apply String.eqb_neq in Hne. rewrite String.eqb_sym in Hne.
  induction d as [|[k0 v0] d IH]; simpl.
  - now rewrite Hne.
  - destruct (String.eqb k k0) eqn:E; simpl.
    + apply String.eqb_eq in E. subst k0. now rewrite Hne.
    + now rewrite IH.
Qed.

Section Batch.
Variable registry : dict ElementProperties.
Context {G : Geometry}.

(** The file of one representative structure after a turn of the loop. *)
Lemma save_structure_same directory structure name :
  name = structure_filename (cs_structure_type structure) ->
  dict_get (save_structure registry directory structure) name =
  match generate_structure registry (cs_element structure)
          (cs_structure_type structure) (Some (cs_lattice_constant structure))
          (cs_size structure) (cs_c_over_a structure) with
  | Ok data => Some data
  | Raise _ => dict_get directory name
  end.
Proof.
  intros ->. unfold save_structure.
  destruct (generate_structure _ _ _ _ _ _); [|reflexivity].
  apply dict_get_set_same.
Qed.

Lemma save_structure_other directory structure name :
  structure_filename (cs_structure_type structure) <> name ->
  dict_get (save_structure registry directory structure) name = dict_get directory name.
Proof.
  intros Hne. unfold save_structure.
  destruct (generate_structure _ _ _ _ _ _); [|reflexivity].
  now apply dict_get_set_other.
Qed.

Lemma fold_save_other structures directory name :
  Forall (fun structure => structure_filename (cs_structure_type structure) <> name)
    structures ->
  dict_get (fold_left (save_structure registry) structures directory) name =
  dict_get directory name.
Proof.
  revert directory. induction structures as [|c structures IH]; intros directory H.
  - reflexivity.
  - inversion H; subst. simpl. rewrite IH by assumption.
    now apply save_structure_other.
Qed.

(** Building the list of structures raises nothing but [KeyError]. *)
Lemma common_structures_Raise items e :
  common_structures registry items = Raise e -> exists k, e = KeyError k.
Proof.
  induction items as [|[struct_type element] items IH]; simpl; [discriminate|].
  unfold getitem.
  destruct (dict_get registry element) as [props|]; cbn [bind];
    [|intros [= <-]; eauto].
  destruct (str_in struct_type (supported_structures props)); [|exact IH].
  destruct (dict_get (lattice_constants props) struct_type) as [a|]; cbn [bind];
    [|intros [= <-]; eauto].
  destruct (common_structures registry items) as [rest|e']; cbn [bind];
    [discriminate|].
  intros [= <-]. now apply IH.
Qed.

Lemma batch_directory_content directory directory' :
  generate_common_structures registry directory = Ok directory' ->
  (forall struct_type element,
     In (struct_type, element) REPRESENTATIVE_STRUCTURES ->
     exists element_props,
       dict_get registry element = Some element_props /\
       dict_get directory' (structure_filename struct_type) =
         if str_in struct_type (supported_structures element_props) then
           match generate_structure registry element struct_type
                   (dict_get (lattice_constants element_props) struct_type)
                   DEFAULT_SUPERCELL_SIZE
                   (if String.eqb struct_type "hcp"
                    then get_c_over_a element_props else None) with
           | Ok data => Some data
           | Raise _ => dict_get directory (structure_filename struct_type)
           end
         else dict_get directory (structure_filename struct_type)) /\
  (forall name,
     ~ In name common_filenames -> dict_get directory' name = dict_get directory name).
Proof.
  unfold generate_common_structures, common_filenames.
  unfold REPRESENTATIVE_STRUCTURES.
  cbn [common_structures map fst]. unfold getitem. intros H.
  destruct (dict_get registry "Cu") as [pc|] eqn:Hc; cbn [bind] in H; [|discriminate].
  destruct (dict_get registry "Fe") as [pf|] eqn:Hf; cbn [bind] in H.
  2: { repeat (destruct (str_in _ _) in H || destruct (dict_get _ _) in H;
               cbn [bind] in H); discriminate. }
  destruct (dict_get registry "Ti") as [pt|] eqn:Ht; cbn [bind] in H.
  2: { repeat (destruct (str_in _ _) in H || destruct (dict_get _ _) in H;
               cbn [bind] in H); discriminate. }
  destruct (str_in "fcc" (supported_structures pc)) eqn:Sc;
  destruct (str_in "bcc" (supported_structures pf)) eqn:Sf;
  destruct (str_in "hcp" (supported_structures pt)) eqn:St;
  repeat match type of H with
  | context [dict_get (lattice_constants ?p) ?k] =>
      destruct (dict_get (lattice_constants p) k) eqn:?; cbn [bind] in H;
      [|discriminate]
  end;
  injection H as <-; split.
  all: try (intros struct_type element [[= <- <-] | [[= <- <-] | [[= <- <-] | []]]];
            eexists; (split; [eassumption|]);
            rewrite ?Sc, ?Sf, ?St;
            repeat match goal with
            | E : dict_get (lattice_constants _) _ = Some _ |- _ => rewrite E; clear E
            end;
            cbn [fold_left];
            repeat first
              [ rewrite save_structure_other
                  by (cbn [cs_structure_type]; discriminate)
              | rewrite save_structure_same by reflexivity;
                cbn [cs_element cs_structure_type cs_lattice_constant cs_size
                     cs_c_over_a] ];
            reflexivity).
  all: intros name Hname; cbn [fold_left];
    repeat rewrite save_structure_other
      by (cbn [cs_structure_type]; intros <-; apply Hname; cbn [In]; tauto);
    reflexivity.
Qed.

(** X19.  The batch after a normal return: for each representative pair,
    the file [structure_<type>.json] holds the record generated for the
    element with the defaults of the registry when the element supports
    the type and the generation succeeds, and is left as it was otherwise;
    a failed generation does not keep the other files from being written;
    no other file of the directory is touched. *)
Theorem batch_directory directory directory' :
  generate_common_structures registry directory = Ok directory' ->
  (forall struct_type element,
     In (struct_type, element) REPRESENTATIVE_STRUCTURES ->
     exists element_props,
       dict_get registry element = Some element_props /\
       dict_get directory' (structure_filename struct_type) =
         if str_in struct_type (supported_structures element_props) then
           match generate_structure registry element struct_type
                   (dict_get (lattice_constants element_props) struct_type)
                   DEFAULT_SUPERCELL_SIZE
                   (if String.eqb struct_type "hcp"
                    then get_c_over_a element_props else None) with
           | Ok data => Some data
           | Raise _ => dict_get directory (structure_filename struct_type)
           end
         else dict_get directory (structure_filename struct_type)) /\
  (forall name,
     ~ In name common_filenames -> dict_get directory' name = dict_get directory name).
Proof. exact (batch_directory_content directory directory'). Qed.

(** X20.  When a representative element is missing from the registry the
    batch raises a [KeyError] while the list of structures is built, before
    any structure is generated or written. *)
Theorem batch_missing_element directory struct_type element :
  In (struct_type, element) REPRESENTATIVE_STRUCTURES ->
  dict_get registry element = None ->
  exists k,
    common_structures registry REPRESENTATIVE_STRUCTURES = Raise (KeyError k) /\
    generate_common_structures registry directory = Raise (KeyError k).
Proof.
  intros Hin Hnone.
  destruct (common_structures registry REPRESENTATIVE_STRUCTURES) as [l|e] eqn:H.
  - exfalso. revert H.
    unfold REPRESENTATIVE_STRUCTURES in *. cbn [common_structures]. unfold getitem.
    destruct Hin as [[= <- <-] | [[= <- <-] | [[= <- <-] | []]]];
      rewrite ?Hnone; cbn [bind]; try discriminate;
      repeat (destruct (dict_get _ _) || destruct (str_in _ _); cbn [bind];
              try discriminate).
  - destruct (common_structures_Raise _ _ H) as (k & ->).
    exists k. split; [reflexivity|].
    unfold generate_common_structures. now rewrite H.
Qed.
End Batch.

(** X21.  With the registry of the program and the geometry of ASE, the
    batch returns normally from any directory and leaves the three files
    [structure_fcc.json], [structure_bcc.json] and [structure_hcp.json],
    each holding the record that [generate_structure] returns for the
    representative element with all defaults. *)
Theorem batch_writes_three_files wrap_flag directory :
  exists directory',
    generate_common_structures (G := ase_geometry wrap_flag) ELEMENTS directory
      = Ok directory' /\
    forall struct_type element,
      In (struct_type, element) REPRESENTATIVE_STRUCTURES ->
      exists data,
        dict_get directory' (structure_filename struct_type) = Some data /\
        generate_structure (G := ase_geometry wrap_flag) ELEMENTS element struct_type
          None DEFAULT_SUPERCELL_SIZE None = Ok data.
Proof.
  destruct (generate_common_structures (G := ase_geometry wrap_flag) ELEMENTS directory)
    as [directory'|e] eqn:H.
  2: { exfalso. revert H. unfold generate_common_structures.
       destruct (common_structures ELEMENTS REPRESENTATIVE_STRUCTURES) eqn:Hc;
         [discriminate|]. discriminate Hc. }
  exists directory'. split; [reflexivity|].
  intros struct_type element Hin.
  destruct (batch_directory_content _ _ _ H) as [Hfiles _].
  destruct (Hfiles _ _ Hin) as (props & Hreg & Hfile).
  assert (Hsup : str_in (lower struct_type) (supported_structures props) = true /\
                 lower struct_type = struct_type).
  { destruct Hin as [[= <- <-] | [[= <- <-] | [[= <- <-] | []]]];
      simpl in Hreg; injection Hreg as <-; split; reflexivity. }
  destruct Hsup as [Hsup Hlow].
  destruct (registry_entry_complete _ _ _ Hreg Hsup) as (family & a & Hf & Hlc & Ha & Hr).
  destruct (generate_structure_succeeds wrap_flag ELEMENTS element struct_type None
              2 2 2 None props family a (atomic_number props)
              Hreg Hf Hsup Hlc Ha eq_refl eq_refl eq_refl Hr
              (registry_atomic_numbers _ _ Hreg)) as [data Hdata].
  exists data. split; [|exact Hdata].
  rewrite Hlow in Hsup, Hlc. rewrite Hfile, Hsup, Hlc.
  rewrite (explicit_defaults_same ELEMENTS element struct_type DEFAULT_SUPERCELL_SIZE
             _ props a Hreg).
  - unfold DEFAULT_SUPERCELL_SIZE. now rewrite Hdata.
  - now rewrite Hlow.
  - destruct (String.eqb struct_type "hcp") eqn:E; [|now left].
    right. apply String.eqb_eq in E. split; [congruence | reflexivity].
Qed.

(** ** Runs of the further properties *)

Lemma cu_fcc_011_refused :
  exists e,
    generate_structure (G := ase_geometry true) ELEMENTS "Cu" "fcc" None [0; 1; 1]%Z None
      = Raise e.
Proof.
  eexists. apply generate_structure_refused.
  rewrite (resolve_request_validates ELEMENTS "Cu" "fcc" None [0; 1; 1]%Z None
             _ (361 / 100) eq_refl eq_refl).
  unfold validate_input. cbn [List.length Nat.eqb negb raise_if bind].
  replace (dict_get ELEMENTS "Cu") with
    (Some {| atomic_number := 29; supported_structures := ["fcc"];
             lattice_constants := [("fcc", 361 / 100)];
             hcp_parameters := None |}) by reflexivity.
  replace (lower (lower "fcc")) with "fcc" by reflexivity.
  cbn [supported_structures].
  replace (str_in "fcc" VALID_STRUCTURES) with true by reflexivity.
  replace (str_in "fcc" ["fcc"]) with true by reflexivity.
  rewrite (proj2 (Rleb_false (361 / 100) 0)) by lra.
  reflexivity.
Qed.

Lemma batch_returns directory :
  exists directory',
    generate_common_structures (G := ase_geometry true) ELEMENTS directory
      = Ok directory'.
Proof.
  unfold generate_common_structures.
  destruct (common_structures ELEMENTS REPRESENTATIVE_STRUCTURES) eqn:Hc;
    [cbn [bind]; eauto | discriminate Hc].
Qed.

Lemma generate_structure_case_insensitive_witness :
  generate_structure (G := ase_geometry true) ELEMENTS "Cu" "FCC" None [1; 1; 1]%Z None =
  generate_structure (G := ase_geometry true) ELEMENTS "Cu" "fcc" None [1; 1; 1]%Z None.
Proof.
  apply (generate_structure_case_insensitive ELEMENTS (G := ase_geometry true)).
  reflexivity.
Defined.

Lemma unknown_element_KeyError_witness :
  generate_structure (G := ase_geometry true) ELEMENTS "XX" "fcc" (Some (361 / 100))
    [2; 2; 2]%Z None = Raise (KeyError "XX").
Proof.
  apply (unknown_element_KeyError ELEMENTS (G := ase_geometry true)). reflexivity.
Defined.

Lemma invalid_structure_type_error_witness :
  generate_structure (G := ase_geometry true) ELEMENTS "Cu" "invalid" (Some (361 / 100))
    [2; 2; 2]%Z None =
  Raise (ValueError
    "Invalid structure type: {structure_type}. Must be one of: {VALID_STRUCTURES}").
Proof.
  eapply (invalid_structure_type_error ELEMENTS (G := ase_geometry true));
    reflexivity.
Defined.

Lemma unsupported_structure_error_witness :
  generate_structure (G := ase_geometry true) ELEMENTS "Cu" "hcp" (Some (361 / 100))
    [2; 2; 2]%Z None =
  Raise (ValueError
    "Structure type {structure_type} is not supported for element {element}").
Proof.
  eapply (unsupported_structure_error ELEMENTS (G := ase_geometry true));
    reflexivity.
Defined.

Lemma nonpositive_lattice_constant_error_witness :
  generate_structure (G := ase_geometry true) ELEMENTS "Cu" "fcc" (Some (-1))
    [-1; 2; 2]%Z None =
  Raise (ValueError "Invalid lattice constant: {lattice_constant}. Must be positive").
Proof.
  eapply (nonpositive_lattice_constant_error ELEMENTS (G := ase_geometry true));
    try reflexivity. lra.
Defined.

Lemma positive_222 : Forall (fun n => (0 < n)%Z) [2; 2; 2]%Z.
Proof. repeat (apply Forall_cons; [lia|]). apply Forall_nil. Qed.

Lemma nonpositive_ratio_error_witness :
  generate_structure (G := ase_geometry true) ELEMENTS "Ti" "hcp" (Some (361 / 100))
    [2; 2; 2]%Z (Some (-1)) =
  Raise (ValueError "HCP structures require a positive c/a ratio").
Proof.
  eapply (nonpositive_ratio_error ELEMENTS (G := ase_geometry true) "Ti" "hcp"
            (Some (361 / 100)) [2; 2; 2]%Z (-1) _ (361 / 100));
    try reflexivity; try exact positive_222; lra.
Defined.

Lemma missing_ratio_errors_witness :
  generate_structure (G := ase_geometry true) bare_hcp_registry "Co" "hcp" None
    [2; 2; 2]%Z None =
  Raise (ValueError "No default c/a ratio for {element}. Please provide one.") /\
  generate_structure (G := ase_geometry true) bare_hcp_registry "Os" "hcp" None
    [2; 2; 2]%Z None =
  Raise (ValueError "c/a ratio is required for HCP structures").
Proof.
  split.
  - eapply (missing_ratio_errors bare_hcp_registry (G := ase_geometry true) "Co" "hcp"
              None [2; 2; 2]%Z
              {| atomic_number := 27; supported_structures := ["hcp"];
                 lattice_constants := [("hcp", 251 / 100)];
                 hcp_parameters := None |} (251 / 100));
      try reflexivity; try exact positive_222; lra.
  - eapply (missing_ratio_errors bare_hcp_registry (G := ase_geometry true) "Os" "hcp"
              None [2; 2; 2]%Z
              {| atomic_number := 76; supported_structures := ["hcp"];
                 lattice_constants := [("hcp", 273 / 100)];
                 hcp_parameters := Some [] |} (273 / 100));
      try reflexivity; try exact positive_222; lra.
Defined.

Lemma explicit_defaults_redundant_witness :
  generate_structure (G := ase_geometry true) ELEMENTS "Ti" "hcp" (Some (295 / 100))
    [2; 2; 2]%Z (Some (1587 / 1000)) =
  generate_structure (G := ase_geometry true) ELEMENTS "Ti" "hcp" None [2; 2; 2]%Z None.
Proof.
  eapply (explicit_defaults_redundant ELEMENTS (G := ase_geometry true) "Ti" "hcp"
            [2; 2; 2]%Z (Some (1587 / 1000)) _ (295 / 100)); try reflexivity.
  right. split; reflexivity.
Defined.

Lemma dead_errors_never_raised_witness :
  exists e,
    generate_structure (G := ase_geometry true) ELEMENTS "Cu" "fcc" None [0; 1; 1]%Z None
      = Raise e /\
    e <> ValueError
           "Unsupported element: {element}. Supported elements: {list(ELEMENTS.keys())}" /\
    e <> ValueError "Unknown structure: {structure_type}".
Proof.
  destruct cu_fcc_011_refused as [e He]. exists e. split; [exact He|].
  exact (dead_errors_never_raised ELEMENTS (G := ase_geometry true) _ _ _ _ _ e He).
Defined.

Lemma metadata_echo_witness :
  exists s,
    generate_structure (G := ase_geometry true) ELEMENTS "Cu" "FCC" None [1; 1; 1]%Z
      (Some (-1)) = Ok s /\
    Metadata.element (metadata s) = "Cu" /\
    Metadata.structure_type (metadata s) = "fcc" /\
    Metadata.supercell_size (metadata s) = [1; 1; 1]%Z /\
    Metadata.lattice_constant (metadata s) = 361 / 100 /\
    Metadata.c_over_a (metadata s) = None.
Proof.
  destruct cu_fcc_negative_ratio_served as [s Hs]. exists s. split; [exact Hs|].
  destruct (metadata_echo ELEMENTS (ase_geometry true) _ _ _ _ _ s Hs)
    as (props & Hreg & He & Hst & Hsz & Hlc & Hcoa).
  simpl in Hreg. injection Hreg as <-.
  repeat split; auto. unfold resolved_lattice_constant in Hlc. simpl in Hlc.
  now injection Hlc as <-.
Defined.

Lemma registry_defaults_accepted_witness :
  exists rq,
    resolve_request ELEMENTS "Ti" "HCP" None [1; 1; 1]%Z None = Ok rq /\
    0 < req_lattice_constant rq /\
    (lower "HCP" = "hcp" -> exists r, req_c_over_a rq = Some r /\ 0 < r).
Proof.
  eapply (registry_defaults_accepted "Ti" _ "HCP" 1 1 1); reflexivity.
Defined.

Lemma unsupported_without_constant_witness :
  generate_structure (G := ase_geometry true) ELEMENTS "Cu" "hcp" None [2; 2; 2]%Z None =
  Raise (ValueError
    "No default lattice constant for {element} {structure_type}. Please provide one.").
Proof.
  eapply (unsupported_without_constant (ase_geometry true) "Cu" _ "hcp"); reflexivity.
Defined.

Lemma registry_defaults_served_witness :
  exists s,
    generate_structure (G := ase_geometry true) ELEMENTS "Mg" "hcp" None [3; 2; 1]%Z None
      = Ok s.
Proof.
  eapply (registry_defaults_served true "Mg" _ "hcp" 3 2 1); reflexivity.
Defined.

Lemma length_check_witness :
  validate_structure (G := slab_geometry) atom_in_slab =
  Raise (ValueError "Invalid cell parameters: some lengths are zero or negative").
Proof.
  apply (length_check (G := slab_geometry) atom_in_slab origin_in_unit_cell).
  simpl. apply Exists_cons_tl, Exists_cons_tl, Exists_cons_hd. lra.
Defined.


Lemma periodic_never_outside_witness :
  validate_structure (G := ase_geometry true) atom_outside_periodic_cube <>
  Raise (ValueError "Some atoms are outside the unit cell").
Proof.
  exact (periodic_never_outside (G := ase_geometry true) atom_outside_periodic_cube _
           eq_refl (ase_scaled_positions_fold true atom_outside_periodic_cube)).
Defined.

Lemma batch_directory_witness :
  exists directory',
    generate_common_structures (G := ase_geometry true) ELEMENTS [] = Ok directory' /\
    forall name, ~ In name common_filenames -> dict_get directory' name = None.
Proof.
  destruct (batch_returns []) as [directory' H]. exists directory'.
  split; [exact H|].
  exact (proj2 (batch_directory ELEMENTS (G := ase_geometry true) [] directory' H)).
Defined.

Lemma batch_missing_element_witness :
  exists k,
    common_structures bare_hcp_registry REPRESENTATIVE_STRUCTURES = Raise (KeyError k) /\
    generate_common_structures (G := ase_geometry true) bare_hcp_registry []
      = Raise (KeyError k).
Proof.
  apply (batch_missing_element bare_hcp_registry (G := ase_geometry true) [] "fcc" "Cu").
  - left. reflexivity.
  - reflexivity.
Defined.
